(** * Enrichpedia front end: view-models, repository client and derived
      presentation data

    A shallow embedding of the TypeScript sources

      - [types/index.ts]             (modules [QAScores], [Article],
                                      [ArticleListResponse], [ProcessRequest],
                                      [ProcessResponse], [ProcessingTask])
      - [services/api.ts]            (module [Api], over the client in [Axios])
      - [components/ArticleDetail]   (module [ArticleDetail])
      - [components/ArticleList]     (module [ArticleList])
      - [pages/Article.tsx]          (module [ArticlePage])
      - [pages/Home]                 (module [Home])

    followed by the properties of the specification that were checked
    against them.

    Conventions.  A JavaScript string is the list of its UTF-16 code units.
    A score is an IEEE-754 double ([float]).  Page numbers and totals are
    integer-valued JavaScript numbers and are kept in [Z].  An [async]
    function with one [await] is cut at the [await]: [f_begin] runs up to
    the point where the request has been issued, [f_resume] runs the rest
    once the awaited promise has settled.  Statements run in a state monad
    with exceptions in which a [throw] keeps the state changes made before
    it, as in JavaScript.  Icons, style classes, the markdown body and the
    formatting of dates are left out of what is rendered. *)

From Stdlib Require Import ZArith List String Ascii Bool Lia.
From Stdlib Require Import DecimalString DecimalPos DecimalZ Nnat.
From Stdlib Require Import Floats.PrimFloat Uint63.
Import ListNotations.
Open Scope Z_scope.

(* ================================================================== *)
(** * The JavaScript platform                                          *)
(* ================================================================== *)

Module JS.

(** A string is a sequence of UTF-16 code units. *)
Definition jsstring := list N.

(** ASCII literals. *)
Definition js (s : string) : jsstring :=
  map N_of_ascii (list_ascii_of_string s).

(** [a === b] on strings. *)
Fixpoint strict_eq (a b : jsstring) : bool :=
  match a, b with
  | [], [] => true
  | x :: a', y :: b' => N.eqb x y && strict_eq a' b'
  | _, _ => false
  end.

(** Truthiness of a string: only [''] is falsy. *)
Definition truthy (s : jsstring) : bool :=
  match s with [] => false | _ :: _ => true end.

(** Truthiness of [string | null | undefined]. *)
Definition truthy_opt (s : option jsstring) : bool :=
  match s with None => false | Some s' => truthy s' end.

(** [a || b] where [a : string | null]. *)
Definition or_else (a : option jsstring) (b : jsstring) : jsstring :=
  match a with
  | Some s => if truthy s then s else b
  | None => b
  end.

(** [Number.prototype.toString] on an integer-valued number. *)
Definition toString (z : Z) : jsstring :=
  js (NilZero.string_of_int (Z.to_int z)).

(** ECMAScript WhiteSpace and LineTerminator code units, the ones
    [String.prototype.trim] strips. *)
Definition isWhiteSpace (c : N) : bool :=
  (((9 <=? c) && (c <=? 13)) || (c =? 32) || (c =? 160) || (c =? 5760)
   || ((8192 <=? c) && (c <=? 8202)) || (c =? 8232) || (c =? 8233)
   || (c =? 8239) || (c =? 8287) || (c =? 12288) || (c =? 65279))%N.

Fixpoint trimStart (s : jsstring) : jsstring :=
  match s with
  | [] => []
  | c :: s' => if isWhiteSpace c then trimStart s' else s
  end.

Definition trimEnd (s : jsstring) : jsstring := rev (trimStart (rev s)).

(** [s.trim()] *)
Definition trim (s : jsstring) : jsstring := trimEnd (trimStart s).

(** [s.length] *)
Definition length (s : jsstring) : Z := Z.of_nat (List.length s).

(** [s.substring(start, end)]: both indices are clamped to
    [0 .. s.length] and swapped when [start > end]. *)
Definition clamp (s : jsstring) (i : Z) : Z := Z.max 0 (Z.min i (length s)).

Definition substring (s : jsstring) (pstart pend : Z) : jsstring :=
  let a := clamp s pstart in
  let b := clamp s pend in
  let lo := Z.min a b in
  let hi := Z.max a b in
  firstn (Z.to_nat (hi - lo)) (skipn (Z.to_nat lo) s).

(** [Math.ceil(a / b)] for integer-valued [a] and a positive integer [b]. *)
Definition Math_ceil_div (a b : Z) : Z := - ((- a) / b).

(** An [Error] instance as far as this program looks at it: the class
    name, the message and, for the errors of the HTTP client, the status
    of the reply ([err.response?.status]). *)
Record ErrorObject := mkError {
  name : jsstring;
  message : jsstring;
  response_status : option Z
}.

(** What a [catch] clause can receive: an [Error] instance or any other
    value. *)
Inductive Thrown :=
| ThrownError (e : ErrorObject)
| ThrownOther.

(** [err instanceof Error ? err.message : fallback] *)
Definition message_or (err : Thrown) (fallback : jsstring) : jsstring :=
  match err with
  | ThrownError e => message e
  | ThrownOther => fallback
  end.

(** [err.name === cls] for a thrown value. *)
Definition has_class (cls : jsstring) (err : Thrown) : bool :=
  match err with
  | ThrownError e => strict_eq (name e) cls
  | ThrownOther => false
  end.

(** A settled promise. *)
Inductive Outcome (A : Type) :=
| Resolved (a : A)
| Rejected (e : Thrown).
Arguments Resolved {A} a.
Arguments Rejected {A} e.

(** ** Statements: state plus exceptions *)

Section Statements.
Context {S : Type}.

Inductive Completion (A : Type) :=
| Normal (a : A)
| Abrupt (e : Thrown).
Arguments Normal {A} a.
Arguments Abrupt {A} e.

Definition Stmt (A : Type) : Type := S -> Completion A * S.

Definition ret {A} (a : A) : Stmt A := fun s => (Normal a, s).

Definition throw {A} (e : Thrown) : Stmt A := fun s => (Abrupt e, s).

Definition bind {A B} (m : Stmt A) (k : A -> Stmt B) : Stmt B :=
  fun s =>
    match m s with
    | (Normal a, s') => k a s'
    | (Abrupt e, s') => (Abrupt e, s')
    end.

(** [try { m } catch (e) { h e }] *)
Definition try_catch {A} (m : Stmt A) (h : Thrown -> Stmt A) : Stmt A :=
  fun s =>
    match m s with
    | (Normal a, s') => (Normal a, s')
    | (Abrupt e, s') => h e s'
    end.

(** [try { m } finally { f }] *)
Definition try_finally {A} (m : Stmt A) (f : Stmt unit) : Stmt A :=
  fun s =>
    match m s with
    | (r, s') =>
        match f s' with
        | (Normal _, s'') => (r, s'')
        | (Abrupt e, s'') => (Abrupt e, s'')
        end
    end.

(** [await p] for a promise that has settled with [o]. *)
Definition await {A} (o : Outcome A) : Stmt A :=
  match o with
  | Resolved a => ret a
  | Rejected e => throw e
  end.

(** A state update that cannot fail. *)
Definition modify (f : S -> S) : Stmt unit := fun s => (Normal tt, f s).

(** [if (c) { m }] *)
Definition when (c : bool) (m : Stmt unit) : Stmt unit :=
  if c then m else ret tt.

Definition exec {A} (m : Stmt A) (s : S) : S := snd (m s).
Definition completion {A} (m : Stmt A) (s : S) : Completion A := fst (m s).
End Statements.

Arguments Normal {A} a.
Arguments Abrupt {A} e.
Arguments Stmt S A : clear implicits.

End JS.

Import JS.

Declare Scope stmt_scope.
Delimit Scope stmt_scope with stmt.
Notation "x <- m ;; k" := (bind m (fun x => k))
  (at level 61, m at next level, right associativity) : stmt_scope.
Notation "m ;; k" := (bind m (fun _ => k))
  (at level 61, right associativity) : stmt_scope.
Open Scope stmt_scope.


(** How far an [async] function got when control returned to the event
    loop: it ran to its end, or it is suspended at its [await]. *)
Inductive Progress (P : Type) :=
| Finished
| Awaiting (p : P).
Arguments Finished {P}.
Arguments Awaiting {P} p.

(* ================================================================== *)
(** * types/index.ts                                                   *)
(* ================================================================== *)

Module QAScores.
Record t := mk {
  readability : float;
  coherence : float;
  redundancy : float;
  neutrality : float;
  human_likeness : float;
  passed : bool;
  failed_metrics : list jsstring
}.
End QAScores.

Inductive SourceType := page_source | group_source.

Module Article.
Record t := mk {
  id : jsstring;
  title : jsstring;
  summary : option jsstring;
  body : jsstring;
  language : jsstring;
  dialect : option jsstring;
  source_url : jsstring;
  source_type : SourceType;
  tags : list jsstring;
  categories : list jsstring;
  qa_scores : option QAScores.t;
  created_at : option jsstring;
  updated_at : option jsstring;
  status : jsstring
}.
End Article.

Module ArticleListResponse.
Record t := mk {
  articles : list Article.t;
  total : Z;
  page : Z;
  page_size : Z
}.
End ArticleListResponse.

Module ProcessRequest.
Record t := mk { url : jsstring }.
End ProcessRequest.

Module ProcessResponse.
Record t := mk {
  success : bool;
  article_id : option jsstring;
  message : jsstring;
  qa_scores : option QAScores.t
}.
End ProcessResponse.

Inductive TaskStatus := processing_task | completed_task | failed_task.

Module ProcessingTask.
Record t := mk {
  task_id : jsstring;
  status : TaskStatus;
  result : option ProcessResponse.t;
  error : option jsstring
}.
End ProcessingTask.

(* ================================================================== *)
(** * The HTTP client                                                  *)
(* ================================================================== *)

(** [api.ts] builds its client with [axios.create] and gives it a base
    URL and one header only, so the defaults of that library decide which
    replies reject: [validateStatus] accepts the statuses 200 to 299, any
    other status rejects with an [AxiosError] that carries it, and a
    request that gets no reply rejects with an [AxiosError] without a
    status. *)
Module Axios.

Record AxiosResponse (T : Type) := mkResponse { data : T; status : Z }.
Arguments mkResponse {T} data status.
Arguments data {T} _.
Arguments status {T} _.

(** What comes back over the wire for one request.  The body is read as a
    [T] (the type argument of [api.get<T>]) only when the status is
    accepted. *)
Inductive Wire (T : Type) :=
| Answer (status : Z) (body : T)
| NoAnswer.
Arguments Answer {T} status body.
Arguments NoAnswer {T}.

Definition validateStatus (status : Z) : bool :=
  (200 <=? status) && (status <? 300).

Definition AxiosError (msg : jsstring) (st : option Z) : Thrown :=
  ThrownError (mkError (js "AxiosError") msg st).

Definition settle {T} (w : Wire T) : Outcome (AxiosResponse T) :=
  match w with
  | Answer st body =>
      if validateStatus st then Resolved (mkResponse body st)
      else Rejected (AxiosError
                       (js "Request failed with status code " ++ toString st)
                       (Some st))
  | NoAnswer => Rejected (AxiosError (js "Network Error") None)
  end.

End Axios.

(* ================================================================== *)
(** * services/api.ts                                                  *)
(* ================================================================== *)

Module Api.

Inductive Method := GET | POST | DELETE.

(** A request as handed to the client: the path below [baseURL], the
    pairs appended to [URLSearchParams] in order (their percent-encoding
    is the platform's), and the JSON body of a POST. *)
Record Request := mkRequest {
  method : Method;
  path : jsstring;
  query : list (jsstring * jsstring);
  body : option ProcessRequest.t
}.

Definition baseURL : jsstring := js "/api".

(** [if (v) params.append(k, v)] *)
Definition append_if (k : jsstring) (v : option jsstring)
  (params : list (jsstring * jsstring)) : list (jsstring * jsstring) :=
  match v with
  | Some s => if truthy s then params ++ [(k, s)] else params
  | None => params
  end.

(** [const response = await api.get<T>(...); return response.data] *)
Definition returned_data {T} (o : Outcome (Axios.AxiosResponse T)) : Outcome T :=
  match o with
  | Resolved response => Resolved (Axios.data response)
  | Rejected e => Rejected e
  end.

(** An [api.ts] function run against a backend: the one request it
    issues is answered over the wire, the client settles it, and the
    function returns the reply's data or rethrows. *)
Definition call {T} (backend : Request -> Axios.Wire T) (r : Request) : Outcome T :=
  returned_data (Axios.settle (backend r)).

Definition getArticles_request (page pageSize : Z)
  (language category : option jsstring) : Request :=
  mkRequest GET (js "/articles")
    (append_if (js "category") category
       (append_if (js "language") language
          [(js "page", toString page); (js "page_size", toString pageSize)]))
    None.

Definition getArticles (backend : Request -> Axios.Wire ArticleListResponse.t)
  (page pageSize : Z) (language category : option jsstring)
  : Outcome ArticleListResponse.t :=
  call backend (getArticles_request page pageSize language category).

Definition getArticle_request (id : jsstring) : Request :=
  mkRequest GET (js "/articles/" ++ id) [] None.

Definition getArticle (backend : Request -> Axios.Wire Article.t)
  (id : jsstring) : Outcome Article.t :=
  call backend (getArticle_request id).

Definition deleteArticle_request (id : jsstring) : Request :=
  mkRequest DELETE (js "/articles/" ++ id) [] None.

Definition deleteArticle (backend : Request -> Axios.Wire unit)
  (id : jsstring) : Outcome unit :=
  match Axios.settle (backend (deleteArticle_request id)) with
  | Resolved _ => Resolved tt
  | Rejected e => Rejected e
  end.

Definition searchArticles_request (q : jsstring) (page pageSize : Z) : Request :=
  mkRequest GET (js "/articles/search/")
    [(js "q", q); (js "page", toString page); (js "page_size", toString pageSize)]
    None.

Definition searchArticles (backend : Request -> Axios.Wire ArticleListResponse.t)
  (q : jsstring) (page pageSize : Z) : Outcome ArticleListResponse.t :=
  call backend (searchArticles_request q page pageSize).

Definition processUrl_request (request : ProcessRequest.t) : Request :=
  mkRequest POST (js "/process/") [] (Some request).

Definition processUrl (backend : Request -> Axios.Wire ProcessResponse.t)
  (request : ProcessRequest.t) : Outcome ProcessResponse.t :=
  call backend (processUrl_request request).

Definition processUrlAsync_request (request : ProcessRequest.t) : Request :=
  mkRequest POST (js "/process/async") [] (Some request).

Definition getProcessingStatus_request (taskId : jsstring) : Request :=
  mkRequest GET (js "/process/status/" ++ taskId) [] None.

Definition getProcessingStatus (backend : Request -> Axios.Wire ProcessingTask.t)
  (taskId : jsstring) : Outcome ProcessingTask.t :=
  call backend (getProcessingStatus_request taskId).

End Api.

(* ================================================================== *)
(** * components/ArticleDetail                                         *)
(* ================================================================== *)

Module ArticleDetail.

Definition isRTL (article : Article.t) : bool :=
  strict_eq (Article.language article) (js "ar").

(** The Arabic word for "Arabic", U+0627 U+0644 U+0639 U+0631 U+0628
    U+064A U+0629. *)
Definition label_ar : jsstring := [1575; 1604; 1593; 1585; 1576; 1610; 1577]%N.

(** [article.language === 'ar' ? ... : 'English'] *)
Definition languageLabel (language : jsstring) : jsstring :=
  if strict_eq language (js "ar") then label_ar else js "English".

(** The text of the language badge: the label, then the dialect in
    parentheses when there is one. *)
Definition languageBadge (article : Article.t) : jsstring :=
  languageLabel (Article.language article)
  ++ match Article.dialect article with
     | Some d => if truthy d then js " (" ++ d ++ js ")" else []
     | None => []
     end.

Definition sourceLabel (article : Article.t) : jsstring :=
  match Article.source_type article with
  | group_source => js "Facebook Group"
  | page_source => js "Facebook Page"
  end.

Definition getScoreColor (score : float) : jsstring :=
  if PrimFloat.leb 75 score then js "#10b981"
  else if PrimFloat.leb 50 score then js "#f59e0b"
  else js "#ef4444".

(** One row of the quality card.  [width] is the number put before the
    percent sign of the bar's width; [scoreValue] is the number printed
    with [toFixed(1)]. *)
Record ScoreItem := mkScoreItem {
  scoreLabel : jsstring;
  width : float;
  backgroundColor : jsstring;
  scoreValue : float
}.

Definition scores (qa : QAScores.t) : list ScoreItem :=
  [ mkScoreItem (js "Readability")
      (QAScores.readability qa)
      (getScoreColor (QAScores.readability qa))
      (QAScores.readability qa);
    mkScoreItem (js "Coherence")
      (QAScores.coherence qa)
      (getScoreColor (QAScores.coherence qa))
      (QAScores.coherence qa);
    mkScoreItem (js "Redundancy")
      (QAScores.redundancy qa)
      (getScoreColor (PrimFloat.sub 100 (QAScores.redundancy qa)))
      (QAScores.redundancy qa);
    mkScoreItem (js "Neutrality")
      (QAScores.neutrality qa)
      (getScoreColor (QAScores.neutrality qa))
      (QAScores.neutrality qa);
    mkScoreItem (js "Human-likeness")
      (QAScores.human_likeness qa)
      (getScoreColor (QAScores.human_likeness qa))
      (QAScores.human_likeness qa) ].

(** The sidebar exists only when the article has scores. *)
Record Sidebar := mkSidebar {
  qaBadge : jsstring;
  scoreItems : list ScoreItem;
  sourceLink : jsstring
}.

Definition sidebar (article : Article.t) : option Sidebar :=
  match Article.qa_scores article with
  | Some qa =>
      Some (mkSidebar
              (if QAScores.passed qa then js "Passed" else js "Needs Review")
              (scores qa)
              (Article.source_url article))
  | None => None
  end.

(** The row of the quality card with a given label. *)
Definition scoreItem (l : jsstring) (qa : QAScores.t) : option ScoreItem :=
  find (fun it => strict_eq (scoreLabel it) l) (scores qa).

(** The badges under the title: every category, then
    [article.tags.slice(0, 5)]. *)
Definition headerCategories (article : Article.t) : list jsstring :=
  Article.categories article.

Definition headerTags (article : Article.t) : list jsstring :=
  firstn 5 (Article.tags article).

(** [dir={isRTL ? 'rtl' : 'ltr'}] *)
Definition dir (article : Article.t) : jsstring :=
  if isRTL article then js "rtl" else js "ltr".

(** [article.summary && <p>...</p>]: the whole summary, or no paragraph. *)
Definition summaryParagraph (article : Article.t) : option jsstring :=
  match Article.summary article with
  | Some s => if truthy s then Some s else None
  | None => None
  end.

End ArticleDetail.

(* ================================================================== *)
(** * components/ArticleList                                           *)
(* ================================================================== *)

Module ArticleList.

Definition languageLabel (language : jsstring) : jsstring :=
  if strict_eq language (js "ar") then ArticleDetail.label_ar else js "English".

(** [summary.length > 150 ? `${summary.substring(0, 150)}...` : summary] *)
Definition summaryText (summary : jsstring) : jsstring :=
  if 150 <? JS.length summary then substring summary 0 150 ++ js "..."
  else summary.

(** [article.summary && <p>...</p>]: no paragraph for [null] and for ['']. *)
Definition summaryParagraph (summary : option jsstring) : option jsstring :=
  match summary with
  | Some s => if truthy s then Some (summaryText s) else None
  | None => None
  end.

Definition qaBadge (qa : option QAScores.t) : option jsstring :=
  match qa with
  | Some q => if QAScores.passed q then Some (js "Verified") else Some (js "Review")
  | None => None
  end.

(** The date cell of a card as it is written:
    [article.created_at
       ? format(new Date(article.created_at), 'MMM d, yyyy')
       : 'Unknown date'].
    The call is kept as a call: what it gives is decided by the platform's
    [Date] and by date-fns, which are not part of these sources. *)
Inductive DateCell :=
| UnknownDate
| FormatDate (created_at pattern : jsstring).

Definition dateCell (created_at : option jsstring) : DateCell :=
  match created_at with
  | Some s => if truthy s then FormatDate s (js "MMM d, yyyy") else UnknownDate
  | None => UnknownDate
  end.

Record Card := mkCard {
  to : jsstring;
  langBadge : jsstring;
  badge : option jsstring;
  sourceType : jsstring;
  cardTitle : jsstring;
  cardSummary : option jsstring;
  cardCategories : list jsstring;
  cardDate : DateCell
}.

Definition card (article : Article.t) : Card :=
  mkCard (js "/article/" ++ Article.id article)
    (languageLabel (Article.language article))
    (qaBadge (Article.qa_scores article))
    (match Article.source_type article with
     | group_source => js "Group"
     | page_source => js "Page"
     end)
    (Article.title article)
    (summaryParagraph (Article.summary article))
    (firstn 3 (Article.categories article))
    (dateCell (Article.created_at article)).

(** What is on screen: the placeholders, the empty notice, or the cards,
    each with the text of its date. *)
Inductive Rendered :=
| Skeletons (n : nat)
| Empty
| Grid (cards : list (Card * jsstring)).

Section Dates.

(** [format(new Date(s), pattern)]: the text, or what date-fns throws (a
    [RangeError]) for a string that [Date] does not read as a date. *)
Variable format_date : jsstring -> jsstring -> Completion jsstring.

Definition dateText (d : DateCell) : Completion jsstring :=
  match d with
  | UnknownDate => Normal (js "Unknown date")
  | FormatDate s pattern => format_date s pattern
  end.

(** [articles.map((article, index) => ...)]: the cards are built in the
    order of the articles and the first date that throws ends the
    render. *)
Fixpoint cards (articles : list Article.t) : Completion (list (Card * jsstring)) :=
  match articles with
  | [] => Normal []
  | article :: rest =>
      match dateText (cardDate (card article)) with
      | Normal text =>
          match cards rest with
          | Normal l => Normal ((card article, text) :: l)
          | Abrupt e => Abrupt e
          end
      | Abrupt e => Abrupt e
      end
  end.

Definition ArticleList (articles : list Article.t) (loading : bool) : Completion Rendered :=
  if loading then Normal (Skeletons 6)
  else match articles with
       | [] => Normal Empty
       | _ :: _ =>
           match cards articles with
           | Normal l => Normal (Grid l)
           | Abrupt e => Abrupt e
           end
       end.

End Dates.

(** The two badge conditions as they are written:
    [article.qa_scores?.passed && ...] and
    [article.qa_scores && !article.qa_scores.passed && ...]. *)
Definition showsVerified (article : Article.t) : bool :=
  match Article.qa_scores article with
  | Some q => QAScores.passed q
  | None => false
  end.

Definition showsReview (article : Article.t) : bool :=
  match Article.qa_scores article with
  | Some q => negb (QAScores.passed q)
  | None => false
  end.

End ArticleList.

(* ================================================================== *)
(** * pages/Article.tsx                                                *)
(* ================================================================== *)

Module ArticlePage.

Record State := mkState {
  article : option Article.t;
  loading : bool;
  error : option jsstring
}.

(** The component state together with the requests issued so far. *)
Record World := mkWorld {
  view : State;
  network : list Api.Request
}.

Definition initial : World := mkWorld (mkState None true None) [].

Definition setArticle (a : option Article.t) : Stmt World unit :=
  modify (fun w => mkWorld (mkState a (loading (view w)) (error (view w))) (network w)).

Definition setLoading (b : bool) : Stmt World unit :=
  modify (fun w => mkWorld (mkState (article (view w)) b (error (view w))) (network w)).

Definition setError (e : option jsstring) : Stmt World unit :=
  modify (fun w => mkWorld (mkState (article (view w)) (loading (view w)) e) (network w)).

Definition issue (r : Api.Request) : Stmt World unit :=
  modify (fun w => mkWorld (view w) (network w ++ [r])).

(** The branch [if (!id) { ...; return }]. *)
Definition id_not_provided : Stmt World (Progress Api.Request) :=
  setError (Some (js "Article ID not provided")) ;;
  setLoading false ;;
  ret Finished.

(** [fetchArticle] up to its [await]; [id] is the route parameter, which
    may be undefined.  [!id] holds for [undefined] and for ['']. *)
Definition fetchArticle_begin (id : option jsstring) : Stmt World (Progress Api.Request) :=
  match id with
  | Some i =>
      if truthy i then
        issue (Api.getArticle_request i) ;;
        ret (Awaiting (Api.getArticle_request i))
      else id_not_provided
  | None => id_not_provided
  end.

(** [fetchArticle] from its [await] on, [o] being how [getArticle(id)]
    settled. *)
Definition fetchArticle_resume (o : Outcome Article.t) : Stmt World unit :=
  try_finally
    (try_catch
       (data <- await o ;;
        setArticle (Some data))
       (fun err => setError (Some (message_or err (js "Failed to load article")))))
    (setLoading false).

(** The whole effect against a backend. *)
Definition fetchArticle (backend : Api.Request -> Axios.Wire Article.t)
  (id : option jsstring) : Stmt World unit :=
  p <- fetchArticle_begin id ;;
  match p with
  | Finished => ret tt
  | Awaiting r => fetchArticle_resume (Api.call backend r)
  end.

Inductive Rendered :=
| LoadingView
| ErrorView (heading paragraph : jsstring)
| DetailView (a : Article.t).

Definition render (s : State) : Rendered :=
  if loading s then LoadingView
  else
    match article s with
    | Some a =>
        if truthy_opt (error s)
        then ErrorView (js "Article Not Found")
               (or_else (error s) (js "The requested article could not be found."))
        else DetailView a
    | None =>
        ErrorView (js "Article Not Found")
          (or_else (error s) (js "The requested article could not be found."))
    end.

(** The effect runs again each time the route's [id] changes.  A visit is
    the id of the route and what comes back over the wire for it; each
    visit is settled before the next one starts. *)
Definition visit (w : World) (v : option jsstring * Axios.Wire Article.t) : World :=
  exec (fetchArticle (fun _ => snd v) (fst v)) w.

Definition visits (vs : list (option jsstring * Axios.Wire Article.t)) (w : World) : World :=
  fold_left visit vs w.

End ArticlePage.

(* ================================================================== *)
(** * pages/Home                                                       *)
(* ================================================================== *)

Module Home.

Definition pageSize : Z := 12.

(** The component state; [searchQuery] is read from the URL's [search]
    parameter on every render. *)
Record State := mkState {
  searchQuery : jsstring;
  articles : list Article.t;
  loading : bool;
  page : Z;
  total : Z;
  processUrl_ : jsstring;
  processing : bool;
  processResult : option ProcessResponse.t;
  processError : option jsstring
}.

(** What [fetchArticles] closes over: the dependencies of its
    [useCallback]. *)
Record Closure := mkClosure {
  c_page : Z;
  c_searchQuery : jsstring
}.

(** An [async] function suspended at its [await], with what it needs to
    go on. *)
Inductive Pending :=
| AwaitFetch (r : Api.Request)
| AwaitProcess (r : Api.Request) (fetchArticles : Closure).

Record World := mkWorld {
  view : State;
  network : list Api.Request;
  inflight : list Pending;
  console : list (jsstring * Thrown)
}.

Definition update (f : State -> State) : Stmt World unit :=
  modify (fun w => mkWorld (f (view w)) (network w) (inflight w) (console w)).

Definition setSearchQuery (q : jsstring) : Stmt World unit :=
  update (fun s => mkState q (articles s) (loading s) (page s) (total s)
                     (processUrl_ s) (processing s) (processResult s) (processError s)).

Definition setArticles (a : list Article.t) : Stmt World unit :=
  update (fun s => mkState (searchQuery s) a (loading s) (page s) (total s)
                     (processUrl_ s) (processing s) (processResult s) (processError s)).

Definition setLoading (b : bool) : Stmt World unit :=
  update (fun s => mkState (searchQuery s) (articles s) b (page s) (total s)
                     (processUrl_ s) (processing s) (processResult s) (processError s)).

(** [setPage((p) => f p)] *)
Definition setPage (f : Z -> Z) : Stmt World unit :=
  update (fun s => mkState (searchQuery s) (articles s) (loading s) (f (page s)) (total s)
                     (processUrl_ s) (processing s) (processResult s) (processError s)).

Definition setTotal (t : Z) : Stmt World unit :=
  update (fun s => mkState (searchQuery s) (articles s) (loading s) (page s) t
                     (processUrl_ s) (processing s) (processResult s) (processError s)).

Definition setProcessUrl (u : jsstring) : Stmt World unit :=
  update (fun s => mkState (searchQuery s) (articles s) (loading s) (page s) (total s)
                     u (processing s) (processResult s) (processError s)).

Definition setProcessing (b : bool) : Stmt World unit :=
  update (fun s => mkState (searchQuery s) (articles s) (loading s) (page s) (total s)
                     (processUrl_ s) b (processResult s) (processError s)).

Definition setProcessResult (r : option ProcessResponse.t) : Stmt World unit :=
  update (fun s => mkState (searchQuery s) (articles s) (loading s) (page s) (total s)
                     (processUrl_ s) (processing s) r (processError s)).

Definition setProcessError (e : option jsstring) : Stmt World unit :=
  update (fun s => mkState (searchQuery s) (articles s) (loading s) (page s) (total s)
                     (processUrl_ s) (processing s) (processResult s) e).

(** Hand a request to the client and leave the caller suspended on it. *)
Definition issue (r : Api.Request) (p : Pending) : Stmt World unit :=
  modify (fun w => mkWorld (view w) (network w ++ [r]) (inflight w ++ [p]) (console w)).

Definition console_error (label : jsstring) (e : Thrown) : Stmt World unit :=
  modify (fun w => mkWorld (view w) (network w) (inflight w) (console w ++ [(label, e)])).

(** The request [fetchArticles] makes:
    [searchQuery ? searchArticles(searchQuery, page, pageSize)
                 : getArticles(page, pageSize)]. *)
Definition fetch_request (c : Closure) : Api.Request :=
  if truthy (c_searchQuery c)
  then Api.searchArticles_request (c_searchQuery c) (c_page c) pageSize
  else Api.getArticles_request (c_page c) pageSize None None.

(** [fetchArticles] up to its [await]. *)
Definition fetchArticles_begin (c : Closure) : Stmt World unit :=
  setLoading true ;;
  issue (fetch_request c) (AwaitFetch (fetch_request c)).

(** [fetchArticles] from its [await] on. *)
Definition fetchArticles_resume (o : Outcome ArticleListResponse.t) : Stmt World unit :=
  try_finally
    (try_catch
       (response <- await o ;;
        setArticles (ArticleListResponse.articles response) ;;
        setTotal (ArticleListResponse.total response))
       (fun error => console_error (js "Failed to fetch articles:") error))
    (setLoading false).

(** The closure of the current render. *)
Definition closure (s : State) : Closure := mkClosure (page s) (searchQuery s).

(** [handleProcess] up to its [await]. *)
Definition handleProcess_begin : Stmt World (Progress Pending) :=
  fun w =>
    let url := processUrl_ (view w) in
    let fetchArticles := closure (view w) in
    (if negb (truthy (trim url)) then ret Finished
     else
       setProcessing true ;;
       setProcessResult None ;;
       setProcessError None ;;
       let r := Api.processUrl_request (ProcessRequest.mk (trim url)) in
       issue r (AwaitProcess r fetchArticles) ;;
       ret (Awaiting (AwaitProcess r fetchArticles))) w.

(** [handleProcess] from its [await] on. *)
Definition handleProcess_resume (fetchArticles : Closure)
  (o : Outcome ProcessResponse.t) : Stmt World unit :=
  try_finally
    (try_catch
       (result <- await o ;;
        setProcessResult (Some result) ;;
        when (ProcessResponse.success result)
          (setProcessUrl [] ;;
           fetchArticles_begin fetchArticles))
       (fun error =>
          setProcessError (Some (message_or error (js "Failed to process URL")))))
    (setProcessing false).

(** ** What is rendered *)

Definition totalPages (s : State) : Z := Math_ceil_div (total s) pageSize.

Definition paginationVisible (s : State) : bool := 1 <? totalPages s.
Definition previousDisabled (s : State) : bool := page s =? 1.
Definition nextDisabled (s : State) : bool := page s =? totalPages s.
Definition submitDisabled (s : State) : bool :=
  processing s || negb (truthy (trim (processUrl_ s))).

(** The message boxes under the URL field. *)
Inductive MessageBox :=
| SuccessBox (text : jsstring)
| ErrorBox (text : jsstring).

Definition resultMessages (s : State) : list MessageBox :=
  match processResult s with
  | Some r =>
      if ProcessResponse.success r
      then [SuccessBox (ProcessResponse.message r)]
      else [ErrorBox (ProcessResponse.message r)]
  | None => []
  end
  ++ match processError s with
     | Some e => if truthy e then [ErrorBox e] else []
     | None => []
     end.

(** ** Event handlers and the event loop *)

Definition onClickPrevious : Stmt World unit :=
  setPage (fun p => Z.max 1 (p - 1)).

Definition onClickNext (s : State) : Stmt World unit :=
  setPage (fun p => Z.min (totalPages s) (p + 1)).

Inductive Reply :=
| ArticlesReply (w : Axios.Wire ArticleListResponse.t)
| ProcessReply (w : Axios.Wire ProcessResponse.t).

Inductive Event :=
| ClickPrevious
| ClickNext
| Navigate (search : option jsstring)
| ChangeUrl (value : jsstring)
| SubmitForm
| Settle (n : nat) (reply : Reply).

Definition remove_nth {A} (n : nat) (l : list A) : list A :=
  firstn n l ++ skipn (Datatypes.S n) l.

Definition drop_inflight (n : nat) : Stmt World unit :=
  modify (fun w => mkWorld (view w) (network w) (remove_nth n (inflight w)) (console w)).

(** What the user or the network can make happen.  A control that is not
    rendered or is disabled does nothing. *)
Definition handle (ev : Event) : Stmt World unit :=
  fun w =>
    let s := view w in
    match ev with
    | ClickPrevious =>
        when (paginationVisible s && negb (previousDisabled s)) onClickPrevious w
    | ClickNext =>
        when (paginationVisible s && negb (nextDisabled s)) (onClickNext s) w
    | Navigate q => setSearchQuery (or_else q []) w
    | ChangeUrl v => when (negb (processing s)) (setProcessUrl v) w
    | SubmitForm =>
        when (negb (processing s)) (handleProcess_begin ;; ret tt) w
    | Settle n reply =>
        match nth_error (inflight w) n, reply with
        | Some (AwaitFetch _), ArticlesReply a =>
            (drop_inflight n ;;
             fetchArticles_resume (Api.returned_data (Axios.settle a))) w
        | Some (AwaitProcess _ c), ProcessReply p =>
            (drop_inflight n ;;
             handleProcess_resume c (Api.returned_data (Axios.settle p))) w
        | _, _ => ret tt w
        end
    end.

(** [useEffect(() => { fetchArticles() }, [fetchArticles])]: the effect
    runs again when [page] or [searchQuery] has changed. *)
Definition deps_changed (old new : State) : bool :=
  negb ((page old =? page new) && strict_eq (searchQuery old) (searchQuery new)).

Definition step (w : World) (ev : Event) : World :=
  let w' := exec (handle ev) w in
  if deps_changed (view w) (view w')
  then exec (fetchArticles_begin (closure (view w'))) w'
  else w'.

Definition run (evs : list Event) (w : World) : World := fold_left step evs w.

(** The component after its first render and first effect. *)
Definition mount (search : option jsstring) : World :=
  let s := mkState (or_else search []) [] true 1 0 [] false None None in
  exec (fetchArticles_begin (closure s)) (mkWorld s [] [] []).

(** The request issued last. *)
Definition last_request (w : World) : option Api.Request :=
  nth_error (network w) (Nat.pred (List.length (network w))).

Definition reachable (w : World) : Prop :=
  exists search evs, w = run evs (mount search).

(** The submissions among the suspended calls. *)
Definition is_submission (p : Pending) : bool :=
  match p with
  | AwaitProcess _ _ => true
  | AwaitFetch _ => false
  end.

Definition submissions (w : World) : list Pending :=
  filter is_submission (inflight w).



(** The form and the suspended calls agree.  While [processing] is set
    there is exactly one submission in flight, it carries the trimmed text
    of the URL field, that text is not empty and both result fields are
    empty; while it is clear there is no submission in flight and at most
    one of the result fields is set. *)
Definition form_consistent (w : World) : Prop :=
  if processing (view w)
  then (exists c,
          submissions w
          = [AwaitProcess
               (Api.processUrl_request (ProcessRequest.mk (trim (processUrl_ (view w))))) c])
       /\ trim (processUrl_ (view w)) <> []
       /\ processResult (view w) = None
       /\ processError (view w) = None
  else submissions w = []
       /\ (processResult (view w) = None \/ processError (view w) = None).

End Home.

(* ================================================================== *)
(** * components/Header.tsx                                            *)
(* ================================================================== *)

Module Header.

Record State := mkState {
  searchQuery : jsstring;
  mobileMenuOpen : bool
}.

(** The component state together with the targets handed to the
    router's [navigate] so far. *)
Record World := mkWorld {
  view : State;
  navigations : list jsstring
}.

Definition initial : World := mkWorld (mkState [] false) [].

Definition setSearchQuery (q : jsstring) : Stmt World unit :=
  modify (fun w => mkWorld (mkState q (mobileMenuOpen (view w))) (navigations w)).

Definition setMobileMenuOpen (b : bool) : Stmt World unit :=
  modify (fun w => mkWorld (mkState (searchQuery (view w)) b) (navigations w)).

Definition navigate (target : jsstring) : Stmt World unit :=
  modify (fun w => mkWorld (view w) (navigations w ++ [target])).

(** ** [encodeURIComponent]

    ECMAScript's [Encode] with the unreserved set of
    [encodeURIComponent]: letters, digits and [- _ . ! ~ * ' ( )] are
    copied, every other code point is written as the octets of its UTF-8
    form, each as [%] and two upper-case hexadecimal digits; a surrogate
    that is not part of a pair raises [URIError]. *)

Definition isAlpha (c : N) : bool :=
  (((65 <=? c) && (c <=? 90)) || ((97 <=? c) && (c <=? 122)))%N.

Definition isDigit (c : N) : bool := ((48 <=? c) && (c <=? 57))%N.

Definition isMark (c : N) : bool :=
  ((c =? 45) || (c =? 95) || (c =? 46) || (c =? 33) || (c =? 126)
   || (c =? 42) || (c =? 39) || (c =? 40) || (c =? 41))%N.

Definition isUnreserved (c : N) : bool := isAlpha c || isDigit c || isMark c.

Definition isLeadSurrogate (c : N) : bool := ((55296 <=? c) && (c <=? 56319))%N.
Definition isTrailSurrogate (c : N) : bool := ((56320 <=? c) && (c <=? 57343))%N.

Definition hexDigit (n : N) : N := (if n <? 10 then 48 + n else 55 + n)%N.

Definition percentOctet (o : N) : jsstring :=
  [37; hexDigit (o / 16); hexDigit (o mod 16)]%N.

Definition utf8 (cp : N) : list N :=
  (if cp <? 128 then [cp]
   else if cp <? 2048 then [192 + cp / 64; 128 + cp mod 64]
   else if cp <? 65536 then [224 + cp / 4096; 128 + (cp / 64) mod 64; 128 + cp mod 64]
   else [240 + cp / 262144; 128 + (cp / 4096) mod 64; 128 + (cp / 64) mod 64;
         128 + cp mod 64])%N.

Definition escape (cp : N) : jsstring := flat_map percentOctet (utf8 cp).

(** The code point of a surrogate pair. *)
Definition pairCodePoint (lead trail : N) : N :=
  ((lead - 55296) * 1024 + (trail - 56320) + 65536)%N.

(** [None] stands for the [URIError]. *)
Fixpoint encodeURIComponent (s : jsstring) : option jsstring :=
  match s with
  | [] => Some []
  | c :: s' =>
      if isUnreserved c then option_map (cons c) (encodeURIComponent s')
      else if isLeadSurrogate c then
        match s' with
        | d :: s'' =>
            if isTrailSurrogate d
            then option_map (app (escape (pairCodePoint c d))) (encodeURIComponent s'')
            else None
        | [] => None
        end
      else if isTrailSurrogate c then None
      else option_map (app (escape c)) (encodeURIComponent s')
  end.

(** The code units that cannot end or split a query parameter: the
    unreserved ones and the percent sign. *)
Definition url_safe (c : N) : bool := isUnreserved c || (c =? 37)%N.

(** The message of a [URIError] is the engine's; this is V8's. *)
Definition URIError : Thrown :=
  ThrownError (mkError (js "URIError") (js "URI malformed") None).

(** [handleSearch], after [e.preventDefault()]. *)
Definition handleSearch : Stmt World unit :=
  fun w =>
    let q := trim (searchQuery (view w)) in
    (if truthy q then
       match encodeURIComponent q with
       | Some encoded => navigate (js "/?search=" ++ encoded)
       | None => throw URIError
       end
     else ret tt) w.

(** The click handler of the menu button. *)
Definition toggleMenu : Stmt World unit :=
  fun w => setMobileMenuOpen (negb (mobileMenuOpen (view w))) w.

End Header.


(* ================================================================== *)
(** * Sample data                                                      *)
(* ================================================================== *)

Module Samples.

Definition article (id title : string) : Article.t :=
  Article.mk (js id) (js title) None (js "text") (js "en") None
    (js "https://facebook.com/examplepage") page_source [] [] None None None
    (js "published").

Definition listing (l : list Article.t) (total page : Z) : ArticleListResponse.t :=
  ArticleListResponse.mk l total page 12.

Definition created : ProcessResponse.t :=
  ProcessResponse.mk true (Some (js "abc123")) (js "Article created") None.

Definition refused : ProcessResponse.t :=
  ProcessResponse.mk false None (js "No public posts found") None.

(** An error of class [NotFoundError] such as the specification names;
    nothing in the sources constructs one. *)
Definition notFoundError (msg : string) : Thrown :=
  ThrownError (mkError (js "NotFoundError") (js msg) (Some 404)).

(** The integer score [k] as a double, and scores with a given
    redundancy. *)
Definition score (k : nat) : float := PrimFloat.of_uint63 (Uint63.of_Z (Z.of_nat k)).

Definition with_redundancy (r : float) : QAScores.t :=
  QAScores.mk 80 80 r 80 80 true [].

(** An article with a creation date. *)
Definition dated (id created_at : string) : Article.t :=
  Article.mk (js id) (js id) None (js "text") (js "en") None
    (js "https://facebook.com/examplepage") page_source [] [] None
    (Some (js created_at)) None (js "published").

(** A stand-in for the platform's date formatting: it reads the one
    timestamp of the samples and refuses every other string the way
    date-fns refuses an invalid date. *)
Definition format_date (s pattern : jsstring) : Completion jsstring :=
  if strict_eq s (js "2024-01-15T10:30:00Z") then Normal (js "Jan 15, 2024")
  else Abrupt (ThrownError (mkError (js "RangeError") (js "Invalid time value") None)).

(** The home page with [u] typed into the URL field. *)
Definition typed (u : string) : Home.World :=
  Home.step (Home.mount None) (Home.ChangeUrl (js u)).

Definition page1 : list Article.t := [article "a1" "First"; article "a2" "Second"].
Definition page2 : list Article.t := [article "a13" "Thirteenth"].

Definition ok (l : list Article.t) (total page : Z) : Home.Reply :=
  Home.ArticlesReply (Axios.Answer 200 (listing l total page)).

Definition failing (st : Z) : Home.Reply :=
  Home.ArticlesReply (Axios.Answer st (listing [] 0 0)).



(** The home page while a submission is in flight. *)
Definition submitting : Home.World :=
  Home.step (typed " https://facebook.com/examplepage ") Home.SubmitForm.

(** Two pages of articles are listed, a URL is typed and submitted, and
    the user moves to page 2 while the submission is in flight. *)
Definition submitted_then_next : Home.World :=
  Home.run [Home.Settle 0 (ok page1 24 1);
            Home.ChangeUrl (js "https://facebook.com/examplepage");
            Home.SubmitForm;
            Home.ClickNext;
            Home.Settle 1 (ok page2 24 2)]
    (Home.mount None).

End Samples.

(* ================================================================== *)
(** * Properties                                                       *)
(* ================================================================== *)

(** ** The platform functions *)

Lemma strict_eq_refl (a : jsstring) : strict_eq a a = true.
Proof.
  induction a as [|x a IH]; simpl; [reflexivity|].
  now rewrite N.eqb_refl, IH.
Qed.

Lemma strict_eq_true (a b : jsstring) : strict_eq a b = true <-> a = b.
Proof.
  split; [|intros ->; apply strict_eq_refl].
  revert b; induction a as [|x a IH]; intros [|y b]; simpl; try discriminate; auto.
  intros H; apply andb_true_iff in H as [Hx Hr].
  apply N.eqb_eq in Hx; f_equal; auto.
Qed.

Lemma strict_eq_false (a b : jsstring) : strict_eq a b = false <-> a <> b.
Proof.
  split.
  - intros H E; apply strict_eq_true in E; congruence.
  - intros H; destruct (strict_eq a b) eqn:E; [|reflexivity].
    apply strict_eq_true in E; contradiction.
Qed.

Lemma truthy_false (s : jsstring) : truthy s = false <-> s = [].
Proof. destruct s; simpl; split; congruence. Qed.

Lemma trimStart_nil (s : jsstring) :
  trimStart s = [] <-> forallb isWhiteSpace s = true.
Proof.
  induction s as [|c s IH]; simpl; [tauto|].
  destruct (isWhiteSpace c); simpl; [exact IH|].
  split; discriminate.
Qed.

Lemma trimStart_head (s t : jsstring) (c : N) :
  trimStart s = c :: t -> isWhiteSpace c = false.
Proof.
  induction s as [|d s IH]; simpl; [discriminate|].
  destruct (isWhiteSpace d) eqn:Ed; [exact IH|].
  intros [= -> _]; exact Ed.
Qed.

(** The trimmed string is empty exactly for the empty string and the
    strings made of white space only. *)
Lemma trim_nil (s : jsstring) :
  trim s = [] <-> forallb isWhiteSpace s = true.
Proof.
  unfold trim, trimEnd; split.
  - intros H.
    assert (E : trimStart (rev (trimStart s)) = []).
    { destruct (trimStart (rev (trimStart s))); [reflexivity|].
      apply (f_equal (@List.length N)) in H; rewrite length_rev in H; discriminate. }
    apply trimStart_nil in E.
    assert (T : trimStart s = []).
    { destruct (trimStart s) as [|c t] eqn:Et; [reflexivity|exfalso].
      rewrite forallb_forall in E.
      assert (Hc : isWhiteSpace c = true)
        by (apply E, in_rev; rewrite rev_involutive; left; reflexivity).
      apply trimStart_head in Et; congruence. }
    now apply trimStart_nil.
  - intros H; apply trimStart_nil in H; rewrite H; reflexivity.
Qed.

Lemma substring_prefix (s : jsstring) (n : Z) :
  0 <= n <= JS.length s -> substring s 0 n = firstn (Z.to_nat n) s.
Proof.
  intros H; unfold substring, clamp.
  replace (Z.max 0 (Z.min 0 (JS.length s))) with 0 by lia.
  replace (Z.max 0 (Z.min n (JS.length s))) with n by lia.
  replace (Z.min 0 n) with 0 by lia.
  replace (Z.max 0 n - 0) with n by lia.
  reflexivity.
Qed.

(** [Math_ceil_div a b] is the ceiling of the quotient: the least [n]
    with [a <= b * n]. *)
Lemma Math_ceil_div_spec (a b : Z) :
  0 < b ->
  b * (Math_ceil_div a b - 1) < a <= b * Math_ceil_div a b.
Proof.
  intros Hb; unfold Math_ceil_div.
  pose proof (Z.div_mod (- a) b ltac:(lia)) as E.
  pose proof (Z.mod_pos_bound (- a) b Hb) as B.
  nia.
Qed.

(** ** Derived presentation data *)

(** C8 (as the code has it): the label of the language badge, on the
    detail page and on a list card alike, is the Arabic name of Arabic for
    the code ['ar'] and ['English'] for every other code; a code outside
    the mapping is not shown as itself. *)
Theorem language_label_two_way (code : jsstring) :
  ArticleDetail.languageLabel code = ArticleList.languageLabel code
  /\ ((code = js "ar" /\ ArticleDetail.languageLabel code = ArticleDetail.label_ar)
      \/ (code <> js "ar" /\ ArticleDetail.languageLabel code = js "English")).
Proof.
  split; [reflexivity|].
  unfold ArticleDetail.languageLabel.
  destruct (strict_eq code (js "ar")) eqn:E.
  - left; split; [now apply strict_eq_true|reflexivity].
  - right; split; [now apply strict_eq_false|reflexivity].
Qed.

(** C8 fails as stated: the code ['fr'] is not in the mapping and its
    label is ['English'], not ['fr']. *)
Lemma language_label_not_raw_code :
  ArticleDetail.languageLabel (js "fr") = js "English"
  /\ ArticleList.languageLabel (js "fr") = js "English"
  /\ ArticleDetail.languageLabel (js "fr") <> js "fr"
  /\ ArticleList.languageLabel (js "fr") <> js "fr".
Proof. repeat split; try reflexivity; discriminate. Qed.

(** C9: a summary of at most 150 code units is shown as it is, a longer
    one as its first 150 code units followed by three full stops; the card
    has a summary paragraph exactly when the summary is a non-empty
    string.  The text shown is computed from the summary, which is a value
    and is not changed by being shown. *)
Theorem summary_truncation (s : jsstring) :
  ((JS.length s <= 150 /\ ArticleList.summaryText s = s)
   \/ (150 < JS.length s
       /\ ArticleList.summaryText s = firstn 150 s ++ js "..."
       /\ JS.length (ArticleList.summaryText s) = 153))
  /\ ArticleList.summaryParagraph (Some s)
     = (if truthy s then Some (ArticleList.summaryText s) else None)
  /\ ArticleList.summaryParagraph None = None.
Proof.
  split; [|split; reflexivity].
  unfold ArticleList.summaryText.
  destruct (150 <? JS.length s) eqn:E.
  - apply Z.ltb_lt in E; right; split; [exact E|].
    rewrite substring_prefix by lia.
    change (Z.to_nat 150) with 150%nat.
    split; [reflexivity|].
    unfold JS.length in *.
    rewrite length_app, firstn_length_le by lia.
    reflexivity.
  - apply Z.ltb_ge in E; left; split; [exact E|reflexivity].
Qed.

(** C10: in the quality card the bar of the redundancy row is coloured by
    [getScoreColor] applied to [100 - redundancy], the bars of the four
    other rows by [getScoreColor] applied to the score itself; the width
    and the printed value of every row, redundancy included, are the raw
    score; [getScoreColor] has the three bands [>= 75], [>= 50] and the
    rest.  On the whole scores 0 to 100 the redundancy bar is therefore
    green up to 25, amber up to 50 and red above. *)
Theorem redundancy_bar_inverted (qa : QAScores.t) :
  ArticleDetail.scoreItem (js "Redundancy") qa
  = Some (ArticleDetail.mkScoreItem (js "Redundancy")
            (QAScores.redundancy qa)
            (ArticleDetail.getScoreColor (PrimFloat.sub 100 (QAScores.redundancy qa)))
            (QAScores.redundancy qa))
  /\ ArticleDetail.scoreItem (js "Readability") qa
     = Some (ArticleDetail.mkScoreItem (js "Readability")
               (QAScores.readability qa)
               (ArticleDetail.getScoreColor (QAScores.readability qa))
               (QAScores.readability qa))
  /\ ArticleDetail.scoreItem (js "Coherence") qa
     = Some (ArticleDetail.mkScoreItem (js "Coherence")
               (QAScores.coherence qa)
               (ArticleDetail.getScoreColor (QAScores.coherence qa))
               (QAScores.coherence qa))
  /\ ArticleDetail.scoreItem (js "Neutrality") qa
     = Some (ArticleDetail.mkScoreItem (js "Neutrality")
               (QAScores.neutrality qa)
               (ArticleDetail.getScoreColor (QAScores.neutrality qa))
               (QAScores.neutrality qa))
  /\ ArticleDetail.scoreItem (js "Human-likeness") qa
     = Some (ArticleDetail.mkScoreItem (js "Human-likeness")
               (QAScores.human_likeness qa)
               (ArticleDetail.getScoreColor (QAScores.human_likeness qa))
               (QAScores.human_likeness qa))
  /\ List.length (ArticleDetail.scores qa) = 5%nat
  /\ (forall score,
        ArticleDetail.getScoreColor score
        = if PrimFloat.leb 75 score then js "#10b981"
          else if PrimFloat.leb 50 score then js "#f59e0b"
          else js "#ef4444")
  /\ forallb
       (fun k =>
          match ArticleDetail.scoreItem (js "Redundancy")
                  (Samples.with_redundancy (Samples.score k)) with
          | Some row =>
              strict_eq (ArticleDetail.backgroundColor row)
                (if (k <=? 25)%nat then js "#10b981"
                 else if (k <=? 50)%nat then js "#f59e0b"
                 else js "#ef4444")
          | None => false
          end)
       (seq 0 101) = true.
Proof.
  do 7 (split; [reflexivity|]).
  vm_compute; reflexivity.
Qed.

(** The bands at work on a redundancy of 30, 10 and 80: the bar is
    coloured as a score of 70, 90 and 20 would be. *)
Example redundancy_colours :
  let qa := Samples.with_redundancy in
  option_map ArticleDetail.backgroundColor (ArticleDetail.scoreItem (js "Redundancy") (qa 30%float))
  = Some (js "#f59e0b")
  /\ option_map ArticleDetail.backgroundColor (ArticleDetail.scoreItem (js "Redundancy") (qa 10%float))
     = Some (js "#10b981")
  /\ option_map ArticleDetail.backgroundColor (ArticleDetail.scoreItem (js "Redundancy") (qa 80%float))
     = Some (js "#ef4444")
  /\ option_map ArticleDetail.scoreValue (ArticleDetail.scoreItem (js "Redundancy") (qa 30%float))
     = Some 30%float.
Proof. vm_compute. repeat split. Qed.

(** The subtraction is the double's: for the least double above 25 the
    difference rounds to 75 and the bar is still green. *)
Example redundancy_rounding :
  let r := PrimFloat.add 25 0x1p-48 in
  PrimFloat.leb r 25 = false
  /\ option_map ArticleDetail.backgroundColor
       (ArticleDetail.scoreItem (js "Redundancy") (Samples.with_redundancy r))
     = Some (js "#10b981").
Proof. vm_compute. split; reflexivity. Qed.

(** ** The repository client and the detail page *)

Lemma settle_rejected_class {T} (w : Axios.Wire T) (e : Thrown) :
  Axios.settle w = Rejected e ->
  has_class (js "AxiosError") e = true
  /\ truthy (message_or e []) = true.
Proof.
  destruct w as [st b|]; simpl.
  - destruct (Axios.validateStatus st); [discriminate|].
    intros [= <-]; split; reflexivity.
  - intros [= <-]; split; reflexivity.
Qed.

Lemma call_rejected {T} (backend : Api.Request -> Axios.Wire T) (r : Api.Request) (e : Thrown) :
  Api.call backend r = Rejected e -> Axios.settle (backend r) = Rejected e.
Proof.
  unfold Api.call, Api.returned_data.
  destruct (Axios.settle (backend r)); congruence.
Qed.

(** C3 (as the code has it): [getArticle] succeeds with the body exactly
    when the reply's status is between 200 and 299; every other reply, a
    404 like a 500, and the absence of a reply make it fail with the
    client's own error, of class [AxiosError], passed on unchanged.  No
    failure has class [NotFoundError]; a 404 is told from the other
    failures by the status the error carries and by nothing else.  The
    detail page shows the "Article Not Found" view with the error's
    message for every failure. *)
Theorem getArticle_failures_pass_through
  (backend : Api.Request -> Axios.Wire Article.t) (id : jsstring) :
  match backend (Api.getArticle_request id) with
  | Axios.Answer st body =>
      if Axios.validateStatus st
      then Api.getArticle backend id = Resolved body
      else Api.getArticle backend id
           = Rejected (Axios.AxiosError
                         (js "Request failed with status code " ++ toString st)
                         (Some st))
  | Axios.NoAnswer =>
      Api.getArticle backend id
      = Rejected (Axios.AxiosError (js "Network Error") None)
  end
  /\ match Api.getArticle backend id with
     | Resolved a => True
     | Rejected e =>
         has_class (js "AxiosError") e = true
         /\ has_class (js "NotFoundError") e = false
         /\ ArticlePage.render
              (ArticlePage.view
                 (exec (ArticlePage.fetchArticle_resume (Rejected e))
                    ArticlePage.initial))
            = ArticlePage.ErrorView (js "Article Not Found")
                (message_or e (js "Failed to load article"))
     end.
Proof.
  unfold Api.getArticle, Api.call.
  destruct (backend (Api.getArticle_request id)) as [st b|]; simpl.
  - destruct (Axios.validateStatus st); simpl; repeat split; reflexivity.
  - repeat split; reflexivity.
Qed.

(** C3 fails as stated: a lookup answered with 404 fails with an error of
    class [AxiosError], not [NotFoundError], which is also the class of
    the failure for a 500 and for a request without a reply; the page
    gives the three the same heading. *)
Lemma not_found_is_not_a_kind :
  let lookup w := Api.getArticle (fun _ => w) (js "missing-id") in
  let gone := Axios.Answer 404 (Samples.article "none" "none") in
  let broken := Axios.Answer 500 (Samples.article "none" "none") in
  let shown (o : Outcome Article.t) :=
    ArticlePage.render
      (ArticlePage.view (exec (ArticlePage.fetchArticle_resume o) ArticlePage.initial)) in
  lookup gone
  = Rejected (ThrownError (mkError (js "AxiosError")
                             (js "Request failed with status code 404") (Some 404)))
  /\ lookup broken
     = Rejected (ThrownError (mkError (js "AxiosError")
                                (js "Request failed with status code 500") (Some 500)))
  /\ lookup Axios.NoAnswer
     = Rejected (ThrownError (mkError (js "AxiosError") (js "Network Error") None))
  /\ (forall e, lookup gone = Rejected e -> has_class (js "NotFoundError") e = false)
  /\ shown (lookup gone)
     = ArticlePage.ErrorView (js "Article Not Found")
         (js "Request failed with status code 404")
  /\ shown (lookup broken)
     = ArticlePage.ErrorView (js "Article Not Found")
         (js "Request failed with status code 500")
  /\ shown (lookup Axios.NoAnswer)
     = ArticlePage.ErrorView (js "Article Not Found") (js "Network Error").
Proof.
  cbv zeta; repeat split; try reflexivity.
  intros e [= <-]; reflexivity.
Qed.

(** C7 (as the code has it): for a missing id (undefined or the empty
    string) [fetchArticle] ends at once, without a request: it stores the
    text "Article ID not provided" as the error and clears [loading].  A
    failed fetch stores the message of what was thrown (or "Failed to load
    article" when that is no [Error]).  The state keeps the text only, no
    error kind; both cases are rendered as the "Article Not Found" view,
    with the stored text under the heading.  Every id that is not empty
    is looked up at the backend. *)
Theorem missing_id_ends_without_request (w : ArticlePage.World) (err : Thrown) :
  let settled (text : jsstring) :=
    ArticlePage.mkWorld
      (ArticlePage.mkState (ArticlePage.article (ArticlePage.view w)) false (Some text))
      (ArticlePage.network w) in
  ArticlePage.fetchArticle_begin None w
  = (Normal Finished, settled (js "Article ID not provided"))
  /\ ArticlePage.fetchArticle_begin (Some []) w
     = (Normal Finished, settled (js "Article ID not provided"))
  /\ ArticlePage.fetchArticle_resume (Rejected err) w
     = (Normal tt, settled (message_or err (js "Failed to load article")))
  /\ (forall text,
        ArticlePage.render (ArticlePage.mkState None false (Some text))
        = ArticlePage.ErrorView (js "Article Not Found")
            (or_else (Some text) (js "The requested article could not be found.")))
  /\ (forall backend,
        exec (ArticlePage.fetchArticle backend None) w
        = settled (js "Article ID not provided"))
  /\ (forall c id,
        ArticlePage.fetchArticle_begin (Some (c :: id)) w
        = (Normal (Awaiting (Api.getArticle_request (c :: id))),
           ArticlePage.mkWorld (ArticlePage.view w)
             (ArticlePage.network w ++ [Api.getArticle_request (c :: id)]))).
Proof.
  cbv zeta; repeat split.
Qed.

(** C7 fails as stated: an error of class [NotFoundError] coming from the
    repository leaves the page in the very state a missing id leaves it
    in when their texts agree, so the two are not kept apart as kinds;
    and an id that is not empty is always sent to the backend, whatever
    it looks like. *)
Lemma missing_id_is_not_a_kind :
  let w1 := exec (ArticlePage.fetchArticle_begin None) ArticlePage.initial in
  let w2 := exec (ArticlePage.fetchArticle_resume
                    (Rejected (Samples.notFoundError "Article ID not provided")))
              (exec (ArticlePage.fetchArticle_begin (Some (js "abc123"))) ArticlePage.initial) in
  has_class (js "NotFoundError") (Samples.notFoundError "Article ID not provided") = true
  /\ ArticlePage.view w1 = ArticlePage.view w2
  /\ ArticlePage.view w1
     = ArticlePage.mkState None false (Some (js "Article ID not provided"))
  /\ ArticlePage.network w1 = []
  /\ ArticlePage.network
       (exec (ArticlePage.fetchArticle_begin (Some (js " "))) ArticlePage.initial)
     = [Api.getArticle_request (js " ")].
Proof. cbv zeta; repeat split. Qed.

(** ** The home page: equations of the handlers *)

Lemma deps_unchanged (s : Home.State) : Home.deps_changed s s = false.
Proof.
  unfold Home.deps_changed; now rewrite Z.eqb_refl, strict_eq_refl.
Qed.

Lemma deps_same (s s' : Home.State) :
  Home.page s' = Home.page s -> Home.searchQuery s' = Home.searchQuery s ->
  Home.deps_changed s s' = false.
Proof.
  intros Hp Hq; unfold Home.deps_changed.
  now rewrite Hp, Hq, Z.eqb_refl, strict_eq_refl.
Qed.

Lemma fetchArticles_begin_eq (c : Home.Closure) (w : Home.World) :
  Home.fetchArticles_begin c w
  = (Normal tt,
     Home.mkWorld
       (Home.mkState (Home.searchQuery (Home.view w)) (Home.articles (Home.view w)) true
          (Home.page (Home.view w)) (Home.total (Home.view w))
          (Home.processUrl_ (Home.view w)) (Home.processing (Home.view w))
          (Home.processResult (Home.view w)) (Home.processError (Home.view w)))
       (Home.network w ++ [Home.fetch_request c])
       (Home.inflight w ++ [Home.AwaitFetch (Home.fetch_request c)])
       (Home.console w)).
Proof. reflexivity. Qed.

Lemma fetchArticles_resume_resolved (r : ArticleListResponse.t) (w : Home.World) :
  Home.fetchArticles_resume (Resolved r) w
  = (Normal tt,
     Home.mkWorld
       (Home.mkState (Home.searchQuery (Home.view w)) (ArticleListResponse.articles r) false
          (Home.page (Home.view w)) (ArticleListResponse.total r)
          (Home.processUrl_ (Home.view w)) (Home.processing (Home.view w))
          (Home.processResult (Home.view w)) (Home.processError (Home.view w)))
       (Home.network w) (Home.inflight w) (Home.console w)).
Proof. reflexivity. Qed.

Lemma fetchArticles_resume_rejected (e : Thrown) (w : Home.World) :
  Home.fetchArticles_resume (Rejected e) w
  = (Normal tt,
     Home.mkWorld
       (Home.mkState (Home.searchQuery (Home.view w)) (Home.articles (Home.view w)) false
          (Home.page (Home.view w)) (Home.total (Home.view w))
          (Home.processUrl_ (Home.view w)) (Home.processing (Home.view w))
          (Home.processResult (Home.view w)) (Home.processError (Home.view w)))
       (Home.network w) (Home.inflight w)
       (Home.console w ++ [(js "Failed to fetch articles:", e)])).
Proof. reflexivity. Qed.

Lemma handleProcess_begin_blank (w : Home.World) :
  trim (Home.processUrl_ (Home.view w)) = [] ->
  Home.handleProcess_begin w = (Normal Finished, w).
Proof.
  intros H; unfold Home.handleProcess_begin; rewrite H; reflexivity.
Qed.

Lemma handleProcess_begin_eq (w : Home.World) :
  trim (Home.processUrl_ (Home.view w)) <> [] ->
  let r := Api.processUrl_request (ProcessRequest.mk (trim (Home.processUrl_ (Home.view w)))) in
  let p := Home.AwaitProcess r (Home.closure (Home.view w)) in
  Home.handleProcess_begin w
  = (Normal (Awaiting p),
     Home.mkWorld
       (Home.mkState (Home.searchQuery (Home.view w)) (Home.articles (Home.view w))
          (Home.loading (Home.view w)) (Home.page (Home.view w)) (Home.total (Home.view w))
          (Home.processUrl_ (Home.view w)) true None None)
       (Home.network w ++ [r]) (Home.inflight w ++ [p]) (Home.console w)).
Proof.
  intros H; unfold Home.handleProcess_begin.
  destruct (trim (Home.processUrl_ (Home.view w))) eqn:E; [contradiction|].
  reflexivity.
Qed.

Lemma nth_error_last {A} (l : list A) (x : A) :
  nth_error (l ++ [x]) (List.length l) = Some x.
Proof.
  rewrite nth_error_app2 by lia; now rewrite Nat.sub_diag.
Qed.

Lemma remove_nth_last {A} (l : list A) (x : A) :
  Home.remove_nth (List.length l) (l ++ [x]) = l.
Proof.
  unfold Home.remove_nth.
  induction l as [|y l IH]; simpl; [reflexivity|].
  simpl in IH; now rewrite IH.
Qed.

(** ** Submitting a URL *)

(** C1 (as the code has it): when the URL field is empty or holds white
    space only, [handleProcess] returns at once: no request is issued, no
    error is raised, stored or shown, and the whole state stays as it
    was. *)
Theorem blank_url_is_ignored (w : Home.World) :
  forallb isWhiteSpace (Home.processUrl_ (Home.view w)) = true ->
  trim (Home.processUrl_ (Home.view w)) = []
  /\ Home.handleProcess_begin w = (Normal Finished, w)
  /\ Home.step w Home.SubmitForm = w.
Proof.
  intros H; apply trim_nil in H.
  split; [exact H|]. split; [now apply handleProcess_begin_blank|].
  unfold Home.step, Home.handle, exec, when, bind.
  destruct (negb (Home.processing (Home.view w))); simpl.
  - rewrite handleProcess_begin_blank by exact H; simpl.
    now rewrite deps_unchanged.
  - now rewrite deps_unchanged.
Qed.

Lemma blank_url_is_ignored_witness :
  forallb isWhiteSpace (Home.processUrl_ (Home.view (Samples.typed "   "))) = true
  /\ Home.step (Samples.typed "   ") Home.SubmitForm = Samples.typed "   ".
Proof.
  split; [reflexivity|].
  apply (blank_url_is_ignored (Samples.typed "   ")); reflexivity.
Defined.

(** C1 fails as stated: with three spaces in the URL field the handler
    completes normally and leaves the state as it was; nothing is thrown,
    [processError] stays [null] and no message is shown, so no validation
    error is yielded.  No request goes out beyond the list fetch of the
    first render.  The guard is the handler's: [processUrl] itself posts a
    blank URL like any other and returns what the backend answers. *)
Lemma blank_url_yields_no_error :
  let w := Samples.typed "   " in
  Home.handleProcess_begin w = (Normal Finished, w)
  /\ Home.processError (Home.view w) = None
  /\ Home.processResult (Home.view w) = None
  /\ Home.resultMessages (Home.view w) = []
  /\ Home.network w = [Api.getArticles_request 1 12 None None]
  /\ Home.network (Home.step w Home.SubmitForm) = Home.network w
  /\ Api.processUrl (fun _ => Axios.Answer 200 Samples.created) (ProcessRequest.mk (js "   "))
     = Resolved Samples.created.
Proof. cbv zeta; repeat split. Qed.

(** ** Fetching the list *)

(** C4 (as the code has it): when a fetch fails, [articles] and [total]
    keep what they held, [loading] goes back to [false], and the failure
    goes to the console with [console.error] and nowhere else:
    [fetchArticles] completes normally for whoever called it and no field
    of the state records the failure. *)
Theorem failed_fetch_keeps_snapshot (w : Home.World) (e : Thrown) :
  let w' := exec (Home.fetchArticles_resume (Rejected e)) w in
  completion (Home.fetchArticles_resume (Rejected e)) w = Normal tt
  /\ Home.articles (Home.view w') = Home.articles (Home.view w)
  /\ Home.total (Home.view w') = Home.total (Home.view w)
  /\ Home.loading (Home.view w') = false
  /\ Home.console w' = Home.console w ++ [(js "Failed to fetch articles:", e)]
  /\ Home.view w'
     = Home.mkState (Home.searchQuery (Home.view w)) (Home.articles (Home.view w)) false
         (Home.page (Home.view w)) (Home.total (Home.view w))
         (Home.processUrl_ (Home.view w)) (Home.processing (Home.view w))
         (Home.processResult (Home.view w)) (Home.processError (Home.view w))
  /\ Home.network w' = Home.network w
  /\ Home.inflight w' = Home.inflight w.
Proof. cbv zeta; repeat split. Qed.

(** C4 fails as stated: a list is on screen, the fetch of page 2 is
    answered with a 500; the fetch completes normally, the state afterwards
    is the state before with [loading] cleared, and the only trace of the
    failure is one entry in the console. *)
Lemma failed_fetch_not_reported :
  let w := Home.run [Home.Settle 0 (Samples.ok Samples.page1 24 1); Home.ClickNext]
             (Home.mount None) in
  let e := Axios.AxiosError (js "Request failed with status code 500") (Some 500) in
  let w' := Home.step w (Home.Settle 0 (Samples.failing 500)) in
  Home.view w = Home.mkState [] Samples.page1 true 2 24 [] false None None
  /\ Home.view w' = Home.mkState [] Samples.page1 false 2 24 [] false None None
  /\ completion (Home.fetchArticles_resume (Rejected e)) w = Normal tt
  /\ Home.resultMessages (Home.view w') = []
  /\ Home.console w' = [(js "Failed to fetch articles:", e)].
Proof. cbv zeta; repeat split. Qed.

Lemma settle_keeps_deps (w : Home.World) (n : nat) (reply : Home.Reply) :
  Home.page (Home.view (exec (Home.handle (Home.Settle n reply)) w)) = Home.page (Home.view w)
  /\ Home.searchQuery (Home.view (exec (Home.handle (Home.Settle n reply)) w))
     = Home.searchQuery (Home.view w).
Proof.
  unfold Home.handle, exec; cbv beta.
  destruct (nth_error (Home.inflight w) n) as [[r|r c]|];
    destruct reply as [[st b|]|[st b|]]; simpl; try (split; reflexivity).
  - destruct (Axios.validateStatus st); split; reflexivity.
  - destruct (Axios.validateStatus st); [|split; reflexivity].
    unfold bind, Home.handleProcess_resume, try_finally, try_catch, bind; simpl.
    destruct (ProcessResponse.success b); split; reflexivity.
Qed.

Lemma step_settle (w : Home.World) (n : nat) (reply : Home.Reply) :
  Home.step w (Home.Settle n reply) = exec (Home.handle (Home.Settle n reply)) w.
Proof.
  unfold Home.step.
  destruct (settle_keeps_deps w n reply) as [Hp Hq].
  now rewrite (deps_same _ _ Hp Hq).
Qed.

(** C2 (as the code has it): whichever fetch a successful response
    answers, an old one or the latest, it replaces [articles] and [total]
    when it arrives and clears [loading]; the list on screen is that of
    the response that arrived last, not of the fetch that was requested
    last.  [page] and [searchQuery] stay as they are. *)
Theorem last_arrival_wins (w : Home.World) (n : nat) (r : Api.Request)
  (st : Z) (response : ArticleListResponse.t) :
  nth_error (Home.inflight w) n = Some (Home.AwaitFetch r) ->
  Axios.validateStatus st = true ->
  let w' := Home.step w (Home.Settle n (Home.ArticlesReply (Axios.Answer st response))) in
  Home.articles (Home.view w') = ArticleListResponse.articles response
  /\ Home.total (Home.view w') = ArticleListResponse.total response
  /\ Home.loading (Home.view w') = false
  /\ Home.page (Home.view w') = Home.page (Home.view w)
  /\ Home.searchQuery (Home.view w') = Home.searchQuery (Home.view w)
  /\ Home.inflight w' = Home.remove_nth n (Home.inflight w).
Proof.
  intros Hn Hst; cbv zeta; rewrite step_settle.
  unfold Home.handle, exec; cbv beta; rewrite Hn; simpl; rewrite Hst.
  repeat split.
Qed.

Lemma last_arrival_wins_witness :
  let w := Home.run [Home.Settle 0 (Samples.ok Samples.page1 24 1); Home.ClickNext;
                     Home.ClickPrevious]
             (Home.mount None) in
  nth_error (Home.inflight w) 0
  = Some (Home.AwaitFetch (Api.getArticles_request 2 12 None None))
  /\ Home.page (Home.view w) = 1
  /\ Home.articles
       (Home.view (Home.step w (Home.Settle 0 (Samples.ok Samples.page2 24 2))))
     = Samples.page2.
Proof.
  cbv zeta; split; [reflexivity|]; split; [reflexivity|].
  apply (last_arrival_wins _ 0%nat (Api.getArticles_request 2 12 None None) 200
           (Samples.listing Samples.page2 24 2)); reflexivity.
Defined.

(** C2 fails as stated: page 1 is requested, then page 2; the response for
    page 2 arrives first and is shown, the response for page 1 arrives
    after it and replaces it.  The view ends on page 2, its last request
    was for page 2, and it shows the articles and the total of page 1's
    response. *)
Lemma older_response_overwrites :
  let before := Home.run [Home.Settle 0 (Samples.ok Samples.page1 24 1); Home.ClickNext;
                          Home.Settle 0 (Samples.ok Samples.page2 24 2);
                          Home.ClickPrevious; Home.ClickNext]
                  (Home.mount None) in
  let newer := Home.step before (Home.Settle 1 (Samples.ok Samples.page2 25 2)) in
  let final := Home.step newer (Home.Settle 0 (Samples.ok Samples.page1 24 1)) in
  Home.inflight before
  = [Home.AwaitFetch (Api.getArticles_request 1 12 None None);
     Home.AwaitFetch (Api.getArticles_request 2 12 None None)]
  /\ Home.articles (Home.view newer) = Samples.page2
  /\ Home.total (Home.view newer) = 25
  /\ Home.page (Home.view final) = 2
  /\ Home.last_request final = Some (Api.getArticles_request 2 12 None None)
  /\ Home.inflight final = []
  /\ Home.articles (Home.view final) = Samples.page1
  /\ Home.total (Home.view final) = 24
  /\ Samples.page1 <> Samples.page2.
Proof. cbv zeta; repeat split; discriminate. Qed.

(** ** Page navigation *)

Lemma step_page (w : Home.World) (ev : Home.Event) :
  Home.page (Home.view (Home.step w ev))
  = match ev with
    | Home.ClickPrevious =>
        if Home.paginationVisible (Home.view w) && negb (Home.previousDisabled (Home.view w))
        then Z.max 1 (Home.page (Home.view w) - 1)
        else Home.page (Home.view w)
    | Home.ClickNext =>
        if Home.paginationVisible (Home.view w) && negb (Home.nextDisabled (Home.view w))
        then Z.min (Home.totalPages (Home.view w)) (Home.page (Home.view w) + 1)
        else Home.page (Home.view w)
    | _ => Home.page (Home.view w)
    end.
Proof.
  destruct ev as [| |q|v| |n reply];
    try (rewrite step_settle; apply settle_keeps_deps);
    unfold Home.step, Home.handle, exec; cbv beta.
  - destruct (Home.paginationVisible (Home.view w) && negb (Home.previousDisabled (Home.view w)));
      simpl; match goal with |- context [if ?c then _ else _] => destruct c end; reflexivity.
  - destruct (Home.paginationVisible (Home.view w) && negb (Home.nextDisabled (Home.view w)));
      simpl; match goal with |- context [if ?c then _ else _] => destruct c end; reflexivity.
  - simpl; match goal with |- context [if ?c then _ else _] => destruct c end; reflexivity.
  - destruct (negb (Home.processing (Home.view w)));
      simpl; match goal with |- context [if ?c then _ else _] => destruct c end; reflexivity.
  - destruct (negb (Home.processing (Home.view w))); simpl.
    + unfold bind, Home.handleProcess_begin.
      destruct (trim (Home.processUrl_ (Home.view w))); simpl;
        match goal with |- context [if ?c then _ else _] => destruct c end; reflexivity.
    + match goal with |- context [if ?c then _ else _] => destruct c end; reflexivity.
Qed.

Lemma run_snoc (evs : list Home.Event) (ev : Home.Event) (w : Home.World) :
  Home.run (evs ++ [ev]) w = Home.step (Home.run evs w) ev.
Proof. unfold Home.run; now rewrite fold_left_app. Qed.

(** The page number never goes below 1. *)
Lemma page_at_least_1 (w : Home.World) :
  Home.reachable w -> 1 <= Home.page (Home.view w).
Proof.
  intros (search & evs & ->).
  induction evs as [|ev evs IH] using rev_ind.
  - simpl; lia.
  - rewrite run_snoc, step_page.
    set (s := Home.view (Home.run evs (Home.mount search))) in *.
    destruct ev; try exact IH.
    + destruct (Home.paginationVisible s && negb (Home.previousDisabled s)); lia.
    + destruct (Home.paginationVisible s && negb (Home.nextDisabled s)) eqn:E; [|lia].
      apply andb_true_iff in E as [V _].
      unfold Home.paginationVisible in V; apply Z.ltb_lt in V; lia.
Qed.

(** The number of pages is the ceiling of [total / 12]. *)
Lemma totalPages_ceiling (s : Home.State) :
  12 * (Home.totalPages s - 1) < Home.total s <= 12 * Home.totalPages s.
Proof. apply (Math_ceil_div_spec (Home.total s) 12); lia. Qed.

(** The two buttons from any reachable state, as a help to read the
    failing run below: the page number is at least 1; with one page or none
    there are no buttons; from a page between 1 and the last one the
    buttons do what the clamp is written for (a no-op at either end, one
    page back or forward otherwise, never leaving that range); from a page
    beyond the last one "Next" is enabled and lands on the last page. *)
Theorem navigation_is_clamped (w : Home.World) :
  Home.reachable w ->
  let p := Home.page (Home.view w) in
  let last := Home.totalPages (Home.view w) in
  let prev := Home.page (Home.view (Home.step w Home.ClickPrevious)) in
  let next := Home.page (Home.view (Home.step w Home.ClickNext)) in
  1 <= p
  /\ (last <= 1 -> prev = p /\ next = p)
  /\ (1 < last ->
      (p = 1 -> prev = p) /\ (p <> 1 -> prev = p - 1)
      /\ (p = last -> next = p) /\ (p < last -> next = p + 1)
      /\ (last < p -> next = last))
  /\ (1 <= p <= last -> 1 <= prev <= last /\ 1 <= next <= last).
Proof.
  intros R; apply page_at_least_1 in R.
  cbv zeta; rewrite !step_page.
  unfold Home.paginationVisible, Home.previousDisabled, Home.nextDisabled.
  set (p := Home.page (Home.view w)) in *.
  set (last := Home.totalPages (Home.view w)).
  split; [exact R|].
  destruct (1 <? last) eqn:V; [apply Z.ltb_lt in V | apply Z.ltb_ge in V];
    destruct (p =? 1) eqn:P1; [apply Z.eqb_eq in P1 | apply Z.eqb_neq in P1
                              | apply Z.eqb_eq in P1 | apply Z.eqb_neq in P1];
    destruct (p =? last) eqn:PL; [apply Z.eqb_eq in PL | apply Z.eqb_neq in PL
                                 | apply Z.eqb_eq in PL | apply Z.eqb_neq in PL
                                 | apply Z.eqb_eq in PL | apply Z.eqb_neq in PL
                                 | apply Z.eqb_eq in PL | apply Z.eqb_neq in PL];
    simpl; lia.
Qed.

Lemma navigation_is_clamped_witness :
  let w := Home.run [Home.Settle 0 (Samples.ok Samples.page1 24 1)] (Home.mount None) in
  Home.reachable w
  /\ Home.page (Home.view w) = 1
  /\ Home.totalPages (Home.view w) = 2
  /\ Home.page (Home.view (Home.step w Home.ClickNext)) = Home.page (Home.view w) + 1.
Proof.
  cbv zeta.
  assert (R : Home.reachable
                (Home.run [Home.Settle 0 (Samples.ok Samples.page1 24 1)] (Home.mount None)))
    by (exists None, [Home.Settle 0 (Samples.ok Samples.page1 24 1)]; reflexivity).
  split; [exact R|].
  split; [vm_compute; reflexivity|]. split; [vm_compute; reflexivity|].
  destruct (navigation_is_clamped _ R) as (_ & _ & H & _).
  destruct (H ltac:(vm_compute; reflexivity)) as (_ & _ & _ & Hnext & _).
  apply Hnext; vm_compute; reflexivity.
Defined.

(** C5, on the input where the code departs from it: the page should
    always stay between 1 and the last valid page, and "Next" should either
    do nothing or add 1.  The view is on page 5 of 5 when a search with 15
    hits is opened; [page] is not set back when the query changes, so it
    stays 5 while the last page is now 2 (the view reads "Page 5 of 2"),
    and "Next", which is enabled there, takes the view to page 2 instead of
    adding 1 or doing nothing. *)
Lemma next_beyond_last_page :
  let evs := [Home.Settle 0 (Samples.ok Samples.page1 60 1);
              Home.ClickNext; Home.Settle 0 (Samples.ok Samples.page2 60 2);
              Home.ClickNext; Home.Settle 0 (Samples.ok Samples.page2 60 3);
              Home.ClickNext; Home.Settle 0 (Samples.ok Samples.page2 60 4);
              Home.ClickNext; Home.Settle 0 (Samples.ok Samples.page2 60 5);
              Home.Navigate (Some (js "climate"));
              Home.Settle 0 (Samples.ok [] 15 5)] in
  let w := Home.run evs (Home.mount None) in
  Home.reachable w
  /\ Home.inflight w = []
  /\ Home.last_request w = Some (Api.searchArticles_request (js "climate") 5 12)
  /\ Home.page (Home.view w) = 5
  /\ Home.total (Home.view w) = 15
  /\ Home.totalPages (Home.view w) = 2
  /\ Home.paginationVisible (Home.view w) = true
  /\ Home.nextDisabled (Home.view w) = false
  /\ Home.page (Home.view (Home.step w Home.ClickNext)) = 2
  /\ Home.page (Home.view (Home.step w Home.ClickNext)) <> Home.page (Home.view w) + 1.
Proof.
  cbv zeta; split.
  - eexists None, _; reflexivity.
  - vm_compute; repeat split; discriminate.
Qed.

(** ** The submission form *)

Lemma step_submit (w : Home.World) :
  Home.processing (Home.view w) = false ->
  trim (Home.processUrl_ (Home.view w)) <> [] ->
  Home.step w Home.SubmitForm
  = Home.mkWorld
      (Home.mkState (Home.searchQuery (Home.view w)) (Home.articles (Home.view w))
         (Home.loading (Home.view w)) (Home.page (Home.view w)) (Home.total (Home.view w))
         (Home.processUrl_ (Home.view w)) true None None)
      (Home.network w
       ++ [Api.processUrl_request (ProcessRequest.mk (trim (Home.processUrl_ (Home.view w))))])
      (Home.inflight w
       ++ [Home.AwaitProcess
             (Api.processUrl_request (ProcessRequest.mk (trim (Home.processUrl_ (Home.view w)))))
             (Home.closure (Home.view w))])
      (Home.console w).
Proof.
  intros Hp Hu.
  unfold Home.step, Home.handle, exec; cbv beta.
  rewrite Hp; simpl; unfold bind.
  rewrite (handleProcess_begin_eq w Hu); simpl.
  now rewrite deps_same.
Qed.

(** The three ways a submission ends, run on the sample page. *)
Example submission_runs :
  let w := Samples.typed "https://facebook.com/examplepage" in
  let settled reply := Home.view (Home.step (Home.step w Home.SubmitForm)
                                    (Home.Settle 1 (Home.ProcessReply reply))) in
  settled (Axios.Answer 200 Samples.created)
  = Home.mkState [] [] true 1 0 [] false (Some Samples.created) None
  /\ settled (Axios.Answer 200 Samples.refused)
     = Home.mkState [] [] true 1 0 (js "https://facebook.com/examplepage") false
         (Some Samples.refused) None
  /\ settled Axios.NoAnswer
     = Home.mkState [] [] true 1 0 (js "https://facebook.com/examplepage") false
         None (Some (js "Network Error")).
Proof. vm_compute; repeat split. Qed.


(* ================================================================== *)
(** * Further properties of the home page                              *)
(* ================================================================== *)

(** ** What holds in every state the page can reach *)

Lemma nth_error_remove_nth {A} (l : list A) (n : nat) (x : A) :
  nth_error l n = Some x ->
  exists l1 l2, l = l1 ++ x :: l2 /\ Home.remove_nth n l = l1 ++ l2.
Proof.
  intros H; destruct (nth_error_split l n H) as (l1 & l2 & -> & <-).
  exists l1, l2; split; [reflexivity|].
  unfold Home.remove_nth.
  induction l1 as [|y l1 IH]; simpl; [reflexivity|].
  simpl in IH; now rewrite IH.
Qed.

Lemma form_consistent_fetch_begin (c : Home.Closure) (w : Home.World) :
  Home.form_consistent w ->
  Home.form_consistent (exec (Home.fetchArticles_begin c) w).
Proof.
  unfold Home.form_consistent, Home.submissions, exec.
  rewrite fetchArticles_begin_eq; simpl.
  rewrite filter_app; simpl; rewrite app_nil_r; auto.
Qed.

Lemma form_consistent_handle (ev : Home.Event) (w : Home.World) :
  Home.form_consistent w ->
  Home.form_consistent (exec (Home.handle ev) w).
Proof.
  intros I.
  destruct ev as [| |q|v| |n reply]; unfold Home.handle, exec; cbv beta.
  - destruct (Home.paginationVisible (Home.view w) && negb (Home.previousDisabled (Home.view w)));
      exact I.
  - destruct (Home.paginationVisible (Home.view w) && negb (Home.nextDisabled (Home.view w)));
      exact I.
  - exact I.
  - unfold Home.form_consistent in *.
    destruct (Home.processing (Home.view w)) eqn:P; simpl; rewrite ?P; exact I.
  - unfold Home.form_consistent in *.
    destruct (Home.processing (Home.view w)) eqn:P; simpl; rewrite ?P; [exact I|].
    unfold bind, Home.handleProcess_begin.
    destruct (trim (Home.processUrl_ (Home.view w))) as [|u0 u] eqn:U; simpl; rewrite ?P;
      [exact I|].
    destruct I as [S _]; unfold Home.submissions in *; simpl.
    rewrite filter_app, S, U; simpl.
    split; [eexists; reflexivity|]. split; [discriminate|]. split; reflexivity.
  - destruct (nth_error (Home.inflight w) n) as [[r|r c]|] eqn:N;
      destruct reply as [a|p]; try exact I.
    + (* a list fetch settles *)
      destruct (nth_error_remove_nth _ _ _ N) as (l1 & l2 & E & R).
      assert (S : Home.submissions
                    (exec (Home.drop_inflight n) w) = Home.submissions w).
      { unfold Home.submissions, exec, Home.drop_inflight, modify; simpl.
        rewrite R, E, !filter_app; reflexivity. }
      unfold Home.form_consistent in *; unfold Home.submissions in *.
      unfold exec, Home.drop_inflight, modify in S; simpl in S.
      unfold bind, Home.drop_inflight, modify.
      destruct (Api.returned_data (Axios.settle a)) as [resp|e];
        [rewrite fetchArticles_resume_resolved | rewrite fetchArticles_resume_rejected];
        simpl; rewrite S; exact I.
    + (* the submission settles *)
      destruct (nth_error_remove_nth _ _ _ N) as (l1 & l2 & E & R).
      unfold Home.form_consistent in *; unfold Home.submissions in *.
      rewrite E, filter_app in I; simpl in I.
      assert (F : filter Home.is_submission l1 = [] /\ filter Home.is_submission l2 = []
                  /\ Home.processResult (Home.view w) = None
                  /\ Home.processError (Home.view w) = None).
      { destruct (Home.processing (Home.view w)).
        - destruct I as ((c0 & S) & _ & Hr & He).
          destruct (filter Home.is_submission l1); simpl in S.
          + injection S as _ S2; auto.
          + injection S as _ S2. destruct l; discriminate.
        - destruct I as [S _]. destruct (filter Home.is_submission l1); discriminate. }
      destruct F as (F1 & F2 & Hr & He).
      unfold bind, Home.drop_inflight, modify.
      unfold Home.handleProcess_resume, try_finally, try_catch, bind.
      destruct (Api.returned_data (Axios.settle p)) as [result|e]; simpl.
      * destruct (ProcessResponse.success result); simpl;
          rewrite R, ?filter_app, F1, F2; simpl; auto.
      * rewrite R, filter_app, F1, F2; simpl; auto.
Qed.

Lemma form_consistent_step (w : Home.World) (ev : Home.Event) :
  Home.form_consistent w -> Home.form_consistent (Home.step w ev).
Proof.
  intros I; unfold Home.step.
  destruct (Home.deps_changed _ _).
  - apply form_consistent_fetch_begin, form_consistent_handle, I.
  - apply form_consistent_handle, I.
Qed.

Lemma form_consistent_reachable (w : Home.World) :
  Home.reachable w -> Home.form_consistent w.
Proof.
  intros (search & evs & ->).
  induction evs as [|ev evs IH] using rev_ind.
  - unfold Home.form_consistent; simpl; auto.
  - rewrite run_snoc; apply form_consistent_step, IH.
Qed.


Lemma reachable_step (w : Home.World) (ev : Home.Event) :
  Home.reachable w -> Home.reachable (Home.step w ev).
Proof.
  intros (search & evs & ->); exists search, (evs ++ [ev]); now rewrite run_snoc.
Qed.

Lemma reachable_run (evs : list Home.Event) (w : Home.World) :
  Home.reachable w -> Home.reachable (Home.run evs w).
Proof.
  revert w; induction evs as [|ev evs IH]; intros w R; [exact R|].
  simpl; apply IH, reachable_step, R.
Qed.







(** X1: in every state the page can reach, the number of submissions in
    flight is 1 while [processing] is set and 0 while it is clear, and
    submitting again while one is in flight changes nothing. *)
Theorem one_submission_in_flight (w : Home.World) :
  Home.reachable w ->
  List.length (Home.submissions w) = (if Home.processing (Home.view w) then 1 else 0)%nat
  /\ (if Home.processing (Home.view w) then Home.step w Home.SubmitForm = w else True).
Proof.
  intros R; apply form_consistent_reachable in R.
  unfold Home.form_consistent in R.
  destruct (Home.processing (Home.view w)) eqn:P.
  - destruct R as ((c & S) & _); rewrite S; split; [reflexivity|].
    unfold Home.step, Home.handle, exec; cbv beta; rewrite P; simpl.
    now rewrite deps_unchanged.
  - destruct R as [S _]; rewrite S; split; [reflexivity|exact I].
Qed.

Lemma one_submission_in_flight_witness :
  Home.reachable Samples.submitting
  /\ List.length (Home.submissions Samples.submitting) = 1%nat
  /\ Home.step Samples.submitting Home.SubmitForm = Samples.submitting.
Proof.
  assert (R : Home.reachable Samples.submitting).
  { exists None, [Home.ChangeUrl (js " https://facebook.com/examplepage "); Home.SubmitForm].
    reflexivity. }
  split; [exact R|].
  exact (one_submission_in_flight Samples.submitting R).
Defined.

(** X2: in every reachable state with [processing] set, the request in
    flight posts the trimmed text that is in the URL field, that text is
    not empty, and no message box is shown under the form. *)
Theorem processing_posts_the_field (w : Home.World) :
  Home.reachable w ->
  Home.processing (Home.view w) = true ->
  (exists c,
     Home.submissions w
     = [Home.AwaitProcess
          (Api.processUrl_request
             (ProcessRequest.mk (trim (Home.processUrl_ (Home.view w))))) c])
  /\ trim (Home.processUrl_ (Home.view w)) <> []
  /\ Home.resultMessages (Home.view w) = [].
Proof.
  intros R P; apply form_consistent_reachable in R.
  unfold Home.form_consistent in R; rewrite P in R.
  destruct R as (S & U & Hr & He).
  split; [exact S|]. split; [exact U|].
  unfold Home.resultMessages; now rewrite Hr, He.
Qed.

Lemma processing_posts_the_field_witness :
  Home.reachable Samples.submitting
  /\ Home.processing (Home.view Samples.submitting) = true
  /\ Home.resultMessages (Home.view Samples.submitting) = [].
Proof.
  assert (R : Home.reachable Samples.submitting).
  { exists None, [Home.ChangeUrl (js " https://facebook.com/examplepage "); Home.SubmitForm].
    reflexivity. }
  assert (P : Home.processing (Home.view Samples.submitting) = true) by reflexivity.
  split; [exact R|]. split; [exact P|].
  exact (proj2 (proj2 (processing_posts_the_field Samples.submitting R P))).
Defined.

(** X3: in every reachable state at most one message box is shown under
    the form: a result and an error are never on screen together. *)
Theorem at_most_one_message (w : Home.World) :
  Home.reachable w ->
  (List.length (Home.resultMessages (Home.view w)) <= 1)%nat
  /\ (Home.processResult (Home.view w) = None \/ Home.processError (Home.view w) = None).
Proof.
  intros R; apply form_consistent_reachable in R.
  unfold Home.form_consistent in R.
  assert (D : Home.processResult (Home.view w) = None
              \/ Home.processError (Home.view w) = None).
  { destruct (Home.processing (Home.view w)); [|tauto].
    destruct R as (_ & _ & Hr & _); auto. }
  split; [|exact D].
  unfold Home.resultMessages.
  destruct D as [-> | ->]; simpl.
  - destruct (Home.processError (Home.view w)) as [e|]; [destruct (truthy e)|]; simpl; lia.
  - rewrite app_nil_r.
    destruct (Home.processResult (Home.view w)) as [r|];
      [destruct (ProcessResponse.success r)|]; simpl; lia.
Qed.

Lemma at_most_one_message_witness :
  Home.reachable Samples.submitting
  /\ (List.length (Home.resultMessages (Home.view Samples.submitting)) <= 1)%nat.
Proof.
  assert (R : Home.reachable Samples.submitting).
  { exists None, [Home.ChangeUrl (js " https://facebook.com/examplepage "); Home.SubmitForm].
    reflexivity. }
  split; [exact R|].
  exact (proj1 (at_most_one_message Samples.submitting R)).
Defined.


(** ** Events of the home page *)

Lemma world_eta (w : Home.World) :
  Home.mkWorld
    (Home.mkState (Home.searchQuery (Home.view w)) (Home.articles (Home.view w))
       (Home.loading (Home.view w)) (Home.page (Home.view w)) (Home.total (Home.view w))
       (Home.processUrl_ (Home.view w)) (Home.processing (Home.view w))
       (Home.processResult (Home.view w)) (Home.processError (Home.view w)))
    (Home.network w) (Home.inflight w) (Home.console w) = w.
Proof. destruct w as [[] ? ? ?]; reflexivity. Qed.

(** X4: opening a search (or leaving it) fetches exactly once, from the
    search endpoint when the new query is not empty and from the list
    endpoint otherwise, and for the page number the view is on: the page is
    not set back to 1.  Opening the query that is already shown does
    nothing at all. *)
Theorem search_change_fetches_once (w : Home.World) (q : option jsstring) :
  let q' := or_else q [] in
  let w' := Home.step w (Home.Navigate q) in
  if strict_eq (Home.searchQuery (Home.view w)) q'
  then w' = w
  else Home.network w'
       = Home.network w
         ++ [if truthy q'
             then Api.searchArticles_request q' (Home.page (Home.view w)) 12
             else Api.getArticles_request (Home.page (Home.view w)) 12 None None]
       /\ Home.searchQuery (Home.view w') = q'
       /\ Home.page (Home.view w') = Home.page (Home.view w)
       /\ Home.loading (Home.view w') = true
       /\ Home.articles (Home.view w') = Home.articles (Home.view w)
       /\ Home.total (Home.view w') = Home.total (Home.view w).
Proof.
  cbv zeta; unfold Home.step, Home.handle, exec; cbv beta; simpl.
  unfold Home.deps_changed; simpl; rewrite Z.eqb_refl; simpl.
  destruct (strict_eq (Home.searchQuery (Home.view w)) (or_else q [])) eqn:E; simpl.
  - apply strict_eq_true in E; rewrite <- E; apply world_eta.
  - unfold Home.fetch_request; simpl.
    destruct (truthy (or_else q [])); repeat split.
Qed.

(** X5: an enabled "Next" or "Previous" fetches exactly once, for the new
    page and the current query; a button that is disabled or not rendered
    leaves the whole state as it is. *)
Theorem page_change_fetches_once (w : Home.World) :
  let s := Home.view w in
  let next := Home.step w Home.ClickNext in
  let prev := Home.step w Home.ClickPrevious in
  (if Home.paginationVisible s && negb (Home.nextDisabled s)
   then Home.page (Home.view next) = Z.min (Home.totalPages s) (Home.page s + 1)
        /\ Home.network next
           = Home.network w
             ++ [Home.fetch_request
                   (Home.mkClosure (Z.min (Home.totalPages s) (Home.page s + 1))
                      (Home.searchQuery s))]
        /\ Home.loading (Home.view next) = true
   else next = w)
  /\ (if Home.paginationVisible s && negb (Home.previousDisabled s)
      then Home.page (Home.view prev) = Z.max 1 (Home.page s - 1)
           /\ Home.network prev
              = Home.network w
                ++ [Home.fetch_request
                      (Home.mkClosure (Z.max 1 (Home.page s - 1)) (Home.searchQuery s))]
           /\ Home.loading (Home.view prev) = true
      else prev = w).
Proof.
  cbv zeta; split; unfold Home.step, Home.handle, exec; cbv beta.
  - destruct (Home.paginationVisible (Home.view w) && negb (Home.nextDisabled (Home.view w)))
      eqn:C; simpl.
    + apply andb_true_iff in C as [V D].
      unfold Home.paginationVisible in V; unfold Home.nextDisabled in D.
      apply Z.ltb_lt in V; apply negb_true_iff, Z.eqb_neq in D.
      unfold Home.deps_changed; simpl.
      replace (Home.page (Home.view w)
               =? Z.min (Home.totalPages (Home.view w)) (Home.page (Home.view w) + 1))
        with false by (symmetry; apply Z.eqb_neq; lia).
      repeat split.
    + now rewrite deps_unchanged.
  - destruct (Home.paginationVisible (Home.view w) && negb (Home.previousDisabled (Home.view w)))
      eqn:C; simpl.
    + apply andb_true_iff in C as [V D].
      unfold Home.previousDisabled in D.
      apply negb_true_iff, Z.eqb_neq in D.
      unfold Home.deps_changed; simpl.
      replace (Home.page (Home.view w) =? Z.max 1 (Home.page (Home.view w) - 1))
        with false by (symmetry; apply Z.eqb_neq; lia).
      repeat split.
    + now rewrite deps_unchanged.
Qed.

(** X6: the pagination controls are rendered exactly when there are more
    than 12 articles; the number of pages is 0 exactly when there is
    nothing to show; and "Next" is disabled exactly on the page that holds
    the last article. *)
Theorem pagination_and_total (s : Home.State) :
  (Home.paginationVisible s = true <-> 12 < Home.total s)
  /\ (Home.totalPages s <= 0 <-> Home.total s <= 0)
  /\ (Home.nextDisabled s = true
      <-> 12 * (Home.page s - 1) < Home.total s <= 12 * Home.page s)
  /\ (Home.previousDisabled s = true <-> Home.page s = 1).
Proof.
  pose proof (totalPages_ceiling s) as C.
  unfold Home.paginationVisible, Home.nextDisabled, Home.previousDisabled.
  rewrite Z.ltb_lt, !Z.eqb_eq.
  repeat split; intros; try lia.
Qed.


Lemma step_submit_any (w : Home.World) :
  Home.step w Home.SubmitForm = w
  \/ (Home.processing (Home.view w) = false
      /\ trim (Home.processUrl_ (Home.view w)) <> []).
Proof.
  destruct (Home.processing (Home.view w)) eqn:P.
  - left; unfold Home.step, Home.handle, exec; cbv beta; rewrite P; simpl.
    now rewrite deps_unchanged.
  - destruct (trim (Home.processUrl_ (Home.view w))) eqn:U.
    + left; unfold Home.step, Home.handle, exec; cbv beta; rewrite P; simpl.
      unfold bind; rewrite (handleProcess_begin_blank w U); simpl.
      now rewrite deps_unchanged.
    + right; split; [reflexivity|discriminate].
Qed.

(** X7: no event issues more than one request, and a request once issued
    stays issued: there is no cancellation.  Over a run the log of requests
    grows by at most the number of events. *)
Theorem requests_only_grow (w : Home.World) (evs : list Home.Event) :
  exists issued,
    Home.network (Home.run evs w) = Home.network w ++ issued
    /\ (List.length issued <= List.length evs)%nat.
Proof.
  assert (One : forall w ev,
             exists l, Home.network (Home.step w ev) = Home.network w ++ l
                       /\ (List.length l <= 1)%nat).
  { clear; intros w ev.
    assert (Z0 : forall w', Home.network w' = Home.network w ->
                            exists l, Home.network w' = Home.network w ++ l
                                      /\ (List.length l <= 1)%nat)
      by (intros w' ->; exists []; rewrite app_nil_r; simpl; split; [reflexivity|lia]).
    destruct ev as [| |q|v| |n reply].
    - unfold Home.step, Home.handle, exec; cbv beta.
      destruct (Home.paginationVisible (Home.view w) && negb (Home.previousDisabled (Home.view w)));
        simpl; match goal with |- context [if ?c then _ else _] => destruct c end; simpl;
        first [ exists []; rewrite app_nil_r; split; [reflexivity|simpl; lia]
              | eexists [_]; split; [reflexivity|simpl; lia] ].
    - unfold Home.step, Home.handle, exec; cbv beta.
      destruct (Home.paginationVisible (Home.view w) && negb (Home.nextDisabled (Home.view w)));
        simpl; match goal with |- context [if ?c then _ else _] => destruct c end; simpl;
        first [ exists []; rewrite app_nil_r; split; [reflexivity|simpl; lia]
              | eexists [_]; split; [reflexivity|simpl; lia] ].
    - unfold Home.step, Home.handle, exec; cbv beta; simpl.
      match goal with |- context [if ?c then _ else _] => destruct c end; simpl;
        first [ exists []; rewrite app_nil_r; split; [reflexivity|simpl; lia]
              | eexists [_]; split; [reflexivity|simpl; lia] ].
    - apply Z0.
      unfold Home.step, Home.handle, exec; cbv beta.
      destruct (negb (Home.processing (Home.view w))); simpl.
      + now rewrite deps_same.
      + now rewrite deps_unchanged.
    - destruct (step_submit_any w) as [E | [P U]]; [apply Z0; now rewrite E|].
      rewrite (step_submit w P U); simpl.
      eexists; split; [reflexivity|simpl; lia].
    - rewrite step_settle; unfold Home.handle, exec; cbv beta.
      destruct (nth_error (Home.inflight w) n) as [[r|r c]|];
        destruct reply as [[st b|]|[st b|]]; simpl;
        try destruct (Axios.validateStatus st); simpl;
        unfold bind, Home.handleProcess_resume, try_finally, try_catch, bind; simpl;
        try destruct (ProcessResponse.success b); simpl;
        first [ exists []; rewrite app_nil_r; split; [reflexivity|simpl; lia]
              | eexists [_]; split; [reflexivity|simpl; lia] ]. }
  revert w; induction evs as [|ev evs IH]; intros w.
  - exists []; rewrite app_nil_r; split; [reflexivity|simpl; lia].
  - simpl. destruct (One w ev) as (l1 & E1 & L1).
    destruct (IH (Home.step w ev)) as (l2 & E2 & L2).
    exists (l1 ++ l2); unfold Home.run in *; rewrite E2, E1, app_assoc.
    split; [reflexivity|]. rewrite length_app; simpl; lia.
Qed.

(** X8: while a submission is in flight, every event other than the
    arrival of its reply leaves the URL field, the [processing] flag and
    the two result fields as they are; in particular typing is ignored. *)
Theorem form_frozen_while_processing (w : Home.World) (ev : Home.Event) :
  Home.processing (Home.view w) = true ->
  (forall n p, ev <> Home.Settle n (Home.ProcessReply p)) ->
  let s := Home.view w in
  let s' := Home.view (Home.step w ev) in
  Home.processUrl_ s' = Home.processUrl_ s
  /\ Home.processing s' = true
  /\ Home.processResult s' = Home.processResult s
  /\ Home.processError s' = Home.processError s.
Proof.
  intros P NS; cbv zeta.
  destruct ev as [| |q|v| |n reply].
  - unfold Home.step, Home.handle, exec; cbv beta.
    destruct (Home.paginationVisible (Home.view w) && negb (Home.previousDisabled (Home.view w)));
      simpl;
      match goal with |- context [if ?c then _ else _] => destruct c end; simpl; auto.
  - unfold Home.step, Home.handle, exec; cbv beta.
    destruct (Home.paginationVisible (Home.view w) && negb (Home.nextDisabled (Home.view w)));
      simpl;
      match goal with |- context [if ?c then _ else _] => destruct c end; simpl; auto.
  - unfold Home.step, Home.handle, exec; cbv beta; simpl.
    match goal with |- context [if ?c then _ else _] => destruct c end; simpl; auto.
  - unfold Home.step, Home.handle, exec; cbv beta; rewrite P; simpl.
    rewrite deps_unchanged; auto.
  - unfold Home.step, Home.handle, exec; cbv beta; rewrite P; simpl.
    rewrite deps_unchanged; auto.
  - rewrite step_settle; unfold Home.handle, exec; cbv beta.
    destruct reply as [a|p]; [|exfalso; exact (NS n p eq_refl)].
    destruct (nth_error (Home.inflight w) n) as [[r|r c]|]; simpl; auto.
    destruct a as [st b|]; simpl; [destruct (Axios.validateStatus st)|]; simpl; auto.
Qed.

Lemma form_frozen_while_processing_witness :
  Home.processing (Home.view Samples.submitting) = true
  /\ Home.processUrl_
       (Home.view (Home.step Samples.submitting (Home.ChangeUrl (js "other"))))
     = Home.processUrl_ (Home.view Samples.submitting).
Proof.
  assert (P : Home.processing (Home.view Samples.submitting) = true) by reflexivity.
  split; [exact P|].
  apply (form_frozen_while_processing Samples.submitting (Home.ChangeUrl (js "other")) P).
  intros n p; discriminate.
Defined.

(** X9: when the reply to a submission says [success = true], the list
    is fetched again for the page and the query that were current when the
    form was submitted (they are kept with the suspended call), not for
    the ones the view is on when the reply arrives; the view's own page
    number is not touched. *)
Theorem refresh_uses_the_closure_of_the_submit (w : Home.World) (n : nat)
  (r : Api.Request) (c : Home.Closure) (st : Z) (result : ProcessResponse.t) :
  nth_error (Home.inflight w) n = Some (Home.AwaitProcess r c) ->
  Axios.validateStatus st = true ->
  ProcessResponse.success result = true ->
  let w' := Home.step w (Home.Settle n (Home.ProcessReply (Axios.Answer st result))) in
  Home.network w' = Home.network w ++ [Home.fetch_request c]
  /\ Home.inflight w'
     = Home.remove_nth n (Home.inflight w) ++ [Home.AwaitFetch (Home.fetch_request c)]
  /\ Home.page (Home.view w') = Home.page (Home.view w)
  /\ Home.searchQuery (Home.view w') = Home.searchQuery (Home.view w)
  /\ Home.loading (Home.view w') = true
  /\ Home.processUrl_ (Home.view w') = []
  /\ Home.processing (Home.view w') = false.
Proof.
  intros N V S; cbv zeta; rewrite step_settle.
  unfold Home.handle, exec; cbv beta; rewrite N; simpl; rewrite V; simpl.
  unfold bind, Home.handleProcess_resume, try_finally, try_catch, bind; simpl.
  rewrite S; simpl; repeat split.
Qed.

Lemma refresh_uses_the_closure_of_the_submit_witness :
  let w := Samples.submitted_then_next in
  let w' := Home.step w (Home.Settle 0 (Home.ProcessReply (Axios.Answer 200 Samples.created))) in
  nth_error (Home.inflight w) 0
  = Some (Home.AwaitProcess
            (Api.processUrl_request (ProcessRequest.mk (js "https://facebook.com/examplepage")))
            (Home.mkClosure 1 []))
  /\ Home.page (Home.view w) = 2
  /\ Home.network w' = Home.network w ++ [Api.getArticles_request 1 12 None None]
  /\ Home.page (Home.view w') = 2.
Proof.
  cbv zeta.
  assert (N : nth_error (Home.inflight Samples.submitted_then_next) 0
              = Some (Home.AwaitProcess
                        (Api.processUrl_request
                           (ProcessRequest.mk (js "https://facebook.com/examplepage")))
                        (Home.mkClosure 1 []))) by (vm_compute; reflexivity).
  split; [exact N|]. split; [vm_compute; reflexivity|].
  destruct (refresh_uses_the_closure_of_the_submit Samples.submitted_then_next 0 _ _ 200
              Samples.created N eq_refl eq_refl) as (H1 & _ & H2 & _).
  split; [exact H1|].
  rewrite H2; vm_compute; reflexivity.
Defined.


(** ** Trimming *)

Lemma trimStart_keep (s : jsstring) (c : N) :
  isWhiteSpace c = false -> exists l, trimStart (s ++ [c]) = l ++ [c].
Proof.
  intros Hc; induction s as [|d s IH]; simpl.
  - rewrite Hc; exists []; reflexivity.
  - destruct (isWhiteSpace d); [exact IH|].
    exists (d :: s); reflexivity.
Qed.

Lemma trimStart_fixed (s : jsstring) :
  isWhiteSpace (hd 32%N s) = false -> trimStart s = s.
Proof. destruct s as [|c s]; simpl; [reflexivity|]. now intros ->. Qed.

(** A trimmed string is empty, or it begins and ends with a code unit that
    is not white space. *)
Lemma trim_ends (s : jsstring) :
  trim s = []
  \/ (exists c m, trim s = c :: m
                  /\ isWhiteSpace c = false
                  /\ isWhiteSpace (last (c :: m) 32%N) = false
                  /\ trim (trim s) = trim s).
Proof.
  unfold trim at 1 2 3, trimEnd.
  destruct (trimStart s) as [|c t] eqn:T; [left; reflexivity|right].
  pose proof (trimStart_head _ _ _ T) as Hc.
  simpl rev.
  destruct (trimStart_keep (rev t) c Hc) as (l & E); rewrite E.
  rewrite rev_app_distr; simpl.
  exists c, (rev l); split; [reflexivity|]. split; [exact Hc|].
  assert (Hl : isWhiteSpace (last (c :: rev l) 32%N) = false).
  { destruct l as [|d l'].
    - simpl; exact Hc.
    - simpl app in E. pose proof (trimStart_head _ _ _ E) as Hd.
      change (c :: rev (d :: l')) with ([c] ++ rev (d :: l')).
      simpl rev. rewrite app_assoc, last_last; exact Hd. }
  split; [exact Hl|].
  unfold trim, trimEnd.
  rewrite T; simpl rev. rewrite E, rev_app_distr; simpl rev; simpl app.
  simpl trimStart; rewrite Hc.
  assert (R : rev (c :: rev l) = l ++ [c]) by (simpl; now rewrite rev_involutive).
  rewrite R.
  rewrite (trimStart_fixed (l ++ [c])).
  - rewrite rev_app_distr; reflexivity.
  - destruct l as [|d l']; simpl; [exact Hc|].
    simpl app in E; exact (trimStart_head _ _ _ E).
Qed.

(** X10: a submission from an idle form either does nothing (the field is
    blank) or posts exactly one request to [/process/] whose [url] is the
    trimmed text of the field: it is not empty, it neither begins nor ends
    with white space, and trimming it again gives it back.  The field
    itself keeps the text as typed. *)
Theorem submitted_url_is_trimmed (w : Home.World) :
  Home.processing (Home.view w) = false ->
  let w' := Home.step w Home.SubmitForm in
  (trim (Home.processUrl_ (Home.view w)) = [] /\ w' = w)
  \/ (exists c m,
        trim (Home.processUrl_ (Home.view w)) = c :: m
        /\ Home.network w'
           = Home.network w
             ++ [Api.mkRequest Api.POST (js "/process/") []
                   (Some (ProcessRequest.mk (c :: m)))]
        /\ isWhiteSpace c = false
        /\ isWhiteSpace (last (c :: m) 32%N) = false
        /\ trim (c :: m) = c :: m
        /\ Home.processUrl_ (Home.view w') = Home.processUrl_ (Home.view w)
        /\ Home.processing (Home.view w') = true).
Proof.
  intros P; cbv zeta.
  destruct (trim_ends (Home.processUrl_ (Home.view w))) as [E | (c & m & E & Hc & Hl & Ht)].
  - left; split; [exact E|].
    unfold Home.step, Home.handle, exec; cbv beta; rewrite P; simpl.
    unfold bind; rewrite (handleProcess_begin_blank w E); simpl.
    now rewrite deps_unchanged.
  - right; exists c, m.
    assert (U : trim (Home.processUrl_ (Home.view w)) <> []) by (rewrite E; discriminate).
    rewrite (step_submit w P U), E in *; simpl.
    repeat split; assumption.
Qed.

Lemma submitted_url_is_trimmed_witness :
  let w := Samples.typed " https://facebook.com/examplepage " in
  Home.processing (Home.view w) = false
  /\ Home.network (Home.step w Home.SubmitForm)
     = Home.network w
       ++ [Api.mkRequest Api.POST (js "/process/") []
             (Some (ProcessRequest.mk (js "https://facebook.com/examplepage")))].
Proof.
  cbv zeta.
  assert (P : Home.processing
                (Home.view (Samples.typed " https://facebook.com/examplepage ")) = false)
    by reflexivity.
  split; [exact P|].
  destruct (submitted_url_is_trimmed _ P) as [[E _] | (c & m & E & N & _)].
  - vm_compute in E; discriminate.
  - rewrite N; f_equal; f_equal; f_equal; f_equal.
    rewrite <- E; vm_compute; reflexivity.
Defined.

(** X11: the list on screen changes only when the reply to a list or
    search request arrives with an accepted status; every other event, a
    failed fetch and the whole life of a submission included, leaves
    [articles] and [total] as they are. *)
Theorem list_changes_only_on_success (w : Home.World) (ev : Home.Event) :
  (Home.articles (Home.view (Home.step w ev)) = Home.articles (Home.view w)
   /\ Home.total (Home.view (Home.step w ev)) = Home.total (Home.view w))
  \/ (exists n r st response,
        ev = Home.Settle n (Home.ArticlesReply (Axios.Answer st response))
        /\ nth_error (Home.inflight w) n = Some (Home.AwaitFetch r)
        /\ Axios.validateStatus st = true
        /\ Home.articles (Home.view (Home.step w ev)) = ArticleListResponse.articles response
        /\ Home.total (Home.view (Home.step w ev)) = ArticleListResponse.total response).
Proof.
  destruct ev as [| |q|v| |n reply].
  - left; unfold Home.step, Home.handle, exec; cbv beta.
    destruct (Home.paginationVisible (Home.view w) && negb (Home.previousDisabled (Home.view w)));
      simpl; match goal with |- context [if ?c then _ else _] => destruct c end; simpl; auto.
  - left; unfold Home.step, Home.handle, exec; cbv beta.
    destruct (Home.paginationVisible (Home.view w) && negb (Home.nextDisabled (Home.view w)));
      simpl; match goal with |- context [if ?c then _ else _] => destruct c end; simpl; auto.
  - left; unfold Home.step, Home.handle, exec; cbv beta; simpl.
    match goal with |- context [if ?c then _ else _] => destruct c end; simpl; auto.
  - left; unfold Home.step, Home.handle, exec; cbv beta.
    destruct (negb (Home.processing (Home.view w))); simpl;
      match goal with |- context [if ?c then _ else _] => destruct c end; simpl; auto.
  - left; destruct (step_submit_any w) as [E | [P U]]; [now rewrite E|].
    rewrite (step_submit w P U); simpl; auto.
  - rewrite step_settle; unfold Home.handle, exec; cbv beta.
    destruct (nth_error (Home.inflight w) n) as [[r|r c]|] eqn:N;
      destruct reply as [[st b|]|[st b|]]; simpl; auto.
    + destruct (Axios.validateStatus st) eqn:V; simpl; auto.
      right; exists n, r, st, b; auto.
    + destruct (Axios.validateStatus st); simpl; auto.
      unfold bind, Home.handleProcess_resume, try_finally, try_catch, bind; simpl.
      destruct (ProcessResponse.success b); simpl; auto.
Qed.


(* ================================================================== *)
(** * Further properties of the detail page                            *)
(* ================================================================== *)

Lemma fetchArticle_cases (backend : Api.Request -> Axios.Wire Article.t)
  (id : option jsstring) (w : ArticlePage.World) :
  let keep text :=
    ArticlePage.mkWorld
      (ArticlePage.mkState (ArticlePage.article (ArticlePage.view w)) false (Some text))
      (ArticlePage.network w ++ if truthy_opt id then [Api.getArticle_request (or_else id [])] else []) in
  ArticlePage.fetchArticle backend id w
  = (Normal tt,
     if truthy_opt id
     then match backend (Api.getArticle_request (or_else id [])) with
          | Axios.Answer st a =>
              if Axios.validateStatus st
              then ArticlePage.mkWorld
                     (ArticlePage.mkState (Some a) false (ArticlePage.error (ArticlePage.view w)))
                     (ArticlePage.network w ++ [Api.getArticle_request (or_else id [])])
              else keep (js "Request failed with status code " ++ toString st)
          | Axios.NoAnswer => keep (js "Network Error")
          end
     else keep (js "Article ID not provided")).
Proof.
  cbv zeta; destruct id as [[|c i]|]; simpl.
  - rewrite app_nil_r; reflexivity.
  - unfold ArticlePage.fetchArticle, bind; simpl.
    unfold Api.call.
    destruct (backend (Api.getArticle_request (c :: i))) as [st a|]; simpl.
    + destruct (Axios.validateStatus st); reflexivity.
    + reflexivity.
  - rewrite app_nil_r; reflexivity.
Qed.

(** X12: whatever the id and whatever the backend answers, [fetchArticle]
    completes normally, ends with [loading] cleared, and has sent one
    request when the id is a non-empty string and none otherwise. *)
Theorem fetchArticle_always_settles (backend : Api.Request -> Axios.Wire Article.t)
  (id : option jsstring) (w : ArticlePage.World) :
  let w' := exec (ArticlePage.fetchArticle backend id) w in
  completion (ArticlePage.fetchArticle backend id) w = Normal tt
  /\ ArticlePage.loading (ArticlePage.view w') = false
  /\ ArticlePage.network w'
     = ArticlePage.network w
       ++ (if truthy_opt id then [Api.getArticle_request (or_else id [])] else [])
  /\ ArticlePage.render (ArticlePage.view w') <> ArticlePage.LoadingView.
Proof.
  cbv zeta; unfold exec, completion; rewrite fetchArticle_cases; cbv zeta; simpl.
  split; [reflexivity|].
  assert (L : forall s, ArticlePage.loading s = false ->
                        ArticlePage.render s <> ArticlePage.LoadingView).
  { intros s H; unfold ArticlePage.render; rewrite H.
    destruct (ArticlePage.article s); [destruct (truthy_opt (ArticlePage.error s))|];
      discriminate. }
  destruct (truthy_opt id).
  - destruct (backend (Api.getArticle_request (or_else id []))) as [st a|];
      [destruct (Axios.validateStatus st)|]; simpl;
      (split; [reflexivity|]; split; [reflexivity|]; apply L; reflexivity).
  - simpl; split; [reflexivity|]; split; [reflexivity|]; apply L; reflexivity.
Qed.

(** X13: what the page shows after its first load: the article when the id
    is a non-empty string and the reply's status is between 200 and 299;
    otherwise the "Article Not Found" view, with "Article ID not provided"
    for a missing id, the client's message for a refused status and
    "Network Error" when no reply came. *)
Theorem first_load_shows (backend : Api.Request -> Axios.Wire Article.t)
  (id : option jsstring) :
  ArticlePage.render
    (ArticlePage.view (exec (ArticlePage.fetchArticle backend id) ArticlePage.initial))
  = if truthy_opt id
    then match backend (Api.getArticle_request (or_else id [])) with
         | Axios.Answer st a =>
             if Axios.validateStatus st then ArticlePage.DetailView a
             else ArticlePage.ErrorView (js "Article Not Found")
                    (js "Request failed with status code " ++ toString st)
         | Axios.NoAnswer =>
             ArticlePage.ErrorView (js "Article Not Found") (js "Network Error")
         end
    else ArticlePage.ErrorView (js "Article Not Found") (js "Article ID not provided").
Proof.
  unfold exec; rewrite fetchArticle_cases; cbv zeta; simpl.
  destruct (truthy_opt id); [|reflexivity].
  destruct (backend (Api.getArticle_request (or_else id []))) as [st a|];
    [destruct (Axios.validateStatus st)|]; reflexivity.
Qed.

Lemma visit_keeps_error (w : ArticlePage.World)
  (v : option jsstring * Axios.Wire Article.t) :
  truthy_opt (ArticlePage.error (ArticlePage.view w)) = true ->
  truthy_opt (ArticlePage.error (ArticlePage.view (ArticlePage.visit w v))) = true.
Proof.
  intros H; unfold ArticlePage.visit, exec; rewrite fetchArticle_cases; cbv zeta; simpl.
  destruct (truthy_opt (fst v)); [|reflexivity].
  destruct (snd v) as [st a|]; [destruct (Axios.validateStatus st)|]; simpl; auto.
Qed.

(** X14: [fetchArticle] never clears [error].  Once the page holds an
    error, no later visit, however it ends, brings an article back on
    screen: after any further visits the page still shows the error view. *)
Theorem error_is_never_cleared (w : ArticlePage.World)
  (vs : list (option jsstring * Axios.Wire Article.t)) :
  truthy_opt (ArticlePage.error (ArticlePage.view w)) = true ->
  ArticlePage.loading (ArticlePage.view w) = false ->
  let w' := ArticlePage.visits vs w in
  truthy_opt (ArticlePage.error (ArticlePage.view w')) = true
  /\ exists text,
       ArticlePage.render (ArticlePage.view w')
       = ArticlePage.ErrorView (js "Article Not Found") text
       /\ ArticlePage.error (ArticlePage.view w') = Some text.
Proof.
  intros He Hl; cbv zeta.
  assert (I : truthy_opt (ArticlePage.error (ArticlePage.view (ArticlePage.visits vs w))) = true
              /\ ArticlePage.loading (ArticlePage.view (ArticlePage.visits vs w)) = false).
  { revert w He Hl; induction vs as [|v vs IH]; intros w He Hl; [split; assumption|].
    simpl; apply IH.
    - now apply visit_keeps_error.
    - unfold ArticlePage.visit, exec; rewrite fetchArticle_cases; cbv zeta; simpl.
      destruct (truthy_opt (fst v)); [|reflexivity].
      destruct (snd v) as [st a|]; [destruct (Axios.validateStatus st)|]; reflexivity. }
  destruct I as [E L]; split; [exact E|].
  unfold ArticlePage.render; rewrite L.
  destruct (ArticlePage.error (ArticlePage.view (ArticlePage.visits vs w))) as [text|] eqn:Et;
    [|discriminate].
  exists text; simpl in E; unfold or_else.
  destruct (ArticlePage.article _); simpl; rewrite E; split; reflexivity.
Qed.

Lemma error_is_never_cleared_witness :
  let failed := ArticlePage.visit ArticlePage.initial
                  (Some (js "gone"), Axios.Answer 404 (Samples.article "none" "none")) in
  let later := ArticlePage.visits
                 [(Some (js "a1"), Axios.Answer 200 (Samples.article "a1" "First"))] failed in
  truthy_opt (ArticlePage.error (ArticlePage.view failed)) = true
  /\ ArticlePage.loading (ArticlePage.view failed) = false
  /\ ArticlePage.article (ArticlePage.view later) = Some (Samples.article "a1" "First")
  /\ truthy_opt (ArticlePage.error (ArticlePage.view later)) = true.
Proof.
  cbv zeta.
  split; [reflexivity|]. split; [reflexivity|]. split; [reflexivity|].
  apply (error_is_never_cleared
           (ArticlePage.visit ArticlePage.initial
              (Some (js "gone"), Axios.Answer 404 (Samples.article "none" "none")))
           [(Some (js "a1"), Axios.Answer 200 (Samples.article "a1" "First"))]);
    reflexivity.
Defined.


(* ================================================================== *)
(** * Further properties of the components                             *)
(* ================================================================== *)

Lemma cards_all_dated (format_date : jsstring -> jsstring -> Completion jsstring)
  (articles : list Article.t) :
  (forall a, In a articles ->
     exists text,
       ArticleList.dateText format_date (ArticleList.dateCell (Article.created_at a))
       = Normal text) ->
  exists l,
    ArticleList.cards format_date articles = Normal l
    /\ map fst l = map ArticleList.card articles
    /\ Forall2 (fun a c =>
                  ArticleList.dateText format_date
                    (ArticleList.dateCell (Article.created_at a)) = Normal (snd c))
         articles l.
Proof.
  induction articles as [|a rest IH]; intros H.
  - exists []; repeat split; constructor.
  - destruct (H a (or_introl eq_refl)) as (text & Ha).
    destruct IH as (l & E & M & F); [intros b Hb; apply H; right; exact Hb|].
    exists ((ArticleList.card a, text) :: l); simpl.
    change (ArticleList.cardDate (ArticleList.card a))
      with (ArticleList.dateCell (Article.created_at a)).
    rewrite Ha, E; repeat split.
    + simpl; now rewrite M.
    + constructor; [exact Ha|exact F].
Qed.

Lemma cards_first_bad_date (format_date : jsstring -> jsstring -> Completion jsstring)
  (before after : list Article.t) (a : Article.t) (e : Thrown) :
  (forall b, In b before ->
     exists text,
       ArticleList.dateText format_date (ArticleList.dateCell (Article.created_at b))
       = Normal text) ->
  ArticleList.dateText format_date (ArticleList.dateCell (Article.created_at a)) = Abrupt e ->
  ArticleList.cards format_date (before ++ a :: after) = Abrupt e.
Proof.
  induction before as [|b before IH]; intros H Ha; simpl.
  - change (ArticleList.cardDate (ArticleList.card a))
      with (ArticleList.dateCell (Article.created_at a)).
    now rewrite Ha.
  - destruct (H b (or_introl eq_refl)) as (text & Hb).
    change (ArticleList.cardDate (ArticleList.card b))
      with (ArticleList.dateCell (Article.created_at b)).
    rewrite Hb, IH; [reflexivity| |exact Ha].
    intros x Hx; apply H; right; exact Hx.
Qed.

(** X15: the list shows six placeholders whenever [loading] is set,
    whatever the articles and their dates, and the empty notice exactly
    when nothing is loading and there is no article.  Otherwise, when the
    creation date of every article formats (a missing or empty one is
    shown as "Unknown date"), there is one card per article, in the order
    of the articles, each linking to [/article/] followed by the article's
    id, carrying its title and the text of its date; and when the date of
    some article does not format, rendering ends with what the first such
    date throws and no card is shown. *)
Theorem one_card_per_article
  (format_date : jsstring -> jsstring -> Completion jsstring)
  (articles : list Article.t) (loading : bool) :
  let dated a :=
    ArticleList.dateText format_date (ArticleList.dateCell (Article.created_at a)) in
  (loading = true ->
   ArticleList.ArticleList format_date articles loading = Normal (ArticleList.Skeletons 6))
  /\ (ArticleList.ArticleList format_date articles loading = Normal ArticleList.Empty
      <-> loading = false /\ articles = [])
  /\ (loading = false -> articles <> [] ->
      (forall a, In a articles -> exists text, dated a = Normal text) ->
      exists cards,
        ArticleList.ArticleList format_date articles loading
        = Normal (ArticleList.Grid cards)
        /\ List.length cards = List.length articles
        /\ map (fun c => ArticleList.to (fst c)) cards
           = map (fun a => js "/article/" ++ Article.id a) articles
        /\ map (fun c => ArticleList.cardTitle (fst c)) cards = map Article.title articles
        /\ Forall2 (fun a c => dated a = Normal (snd c)) articles cards)
  /\ (loading = false ->
      forall before a after e,
        articles = before ++ a :: after ->
        (forall b, In b before -> exists text, dated b = Normal text) ->
        dated a = Abrupt e ->
        ArticleList.ArticleList format_date articles loading = Abrupt e)
  /\ (forall a, Article.created_at a = None \/ Article.created_at a = Some [] ->
                dated a = Normal (js "Unknown date")).
Proof.
  cbv zeta; unfold ArticleList.ArticleList.
  split; [intros ->; reflexivity|]. split; [|split; [|split]].
  - destruct loading; [split; [discriminate|intros [? _]; discriminate]|].
    destruct articles as [|a l]; [split; auto|].
    split; [|intros [_ ?]; discriminate].
    destruct (ArticleList.cards format_date (a :: l)); discriminate.
  - intros -> Ha H; destruct articles as [|a l]; [contradiction|].
    destruct (cards_all_dated format_date (a :: l) H) as (cs & E & M & F).
    exists cs; rewrite E; split; [reflexivity|].
    split; [rewrite <- (length_map fst), M, length_map; reflexivity|].
    split; [|split; [|exact F]].
    + rewrite <- (map_map fst ArticleList.to), M, map_map; reflexivity.
    + rewrite <- (map_map fst ArticleList.cardTitle), M, map_map; reflexivity.
  - intros -> before a after e -> Hb Ha.
    rewrite (cards_first_bad_date format_date before after a e Hb Ha).
    destruct before; reflexivity.
  - intros a [H | H]; rewrite H; reflexivity.
Qed.

Lemma one_card_per_article_witness :
  (exists cards,
     ArticleList.ArticleList Samples.format_date
       [Samples.dated "a1" "2024-01-15T10:30:00Z"; Samples.article "a2" "Second"] false
     = Normal (ArticleList.Grid cards)
     /\ map (fun c => ArticleList.to (fst c)) cards = [js "/article/a1"; js "/article/a2"]
     /\ map snd cards = [js "Jan 15, 2024"; js "Unknown date"])
  /\ ArticleList.ArticleList Samples.format_date
       [Samples.article "a1" "First"; Samples.dated "a2" "yesterday"] false
     = Abrupt (ThrownError (mkError (js "RangeError") (js "Invalid time value") None)).
Proof.
  split.
  - destruct (one_card_per_article Samples.format_date
                [Samples.dated "a1" "2024-01-15T10:30:00Z"; Samples.article "a2" "Second"]
                false) as (_ & _ & H & _).
    destruct (H eq_refl ltac:(discriminate)) as (cards & E & _ & T & _ & F).
    { intros a [<- | [<- | []]]; eexists; reflexivity. }
    exists cards; split; [exact E|]. split; [exact T|].
    inversion F as [|? c1 ? l1 H1 F1]; subst.
    inversion F1 as [|? c2 ? l2 H2 F2]; subst.
    inversion F2; subst.
    destruct c1 as [k1 t1], c2 as [k2 t2]; simpl in *.
    vm_compute in H1, H2; injection H1 as <-; injection H2 as <-; reflexivity.
  - destruct (one_card_per_article Samples.format_date
                [Samples.article "a1" "First"; Samples.dated "a2" "yesterday"]
                false) as (_ & _ & _ & H & _).
    apply (H eq_refl [Samples.article "a1" "First"] (Samples.dated "a2" "yesterday") []).
    + reflexivity.
    + intros b [<- | []]; eexists; reflexivity.
    + reflexivity.
Defined.

Lemma firstn_150_app (s t : jsstring) :
  (150 <= List.length s)%nat -> firstn 150 (firstn 150 s ++ t) = firstn 150 s.
Proof.
  intros H.
  rewrite firstn_app, firstn_firstn, Nat.min_id.
  rewrite firstn_length_le by exact H.
  rewrite Nat.sub_diag; simpl; apply app_nil_r.
Qed.

(** X16: the text of a card's summary is never longer than 153 code
    units, agrees with the summary on the first 150, and shortening it
    again changes nothing. *)
Theorem summary_text_is_stable (s : jsstring) :
  JS.length (ArticleList.summaryText s) <= 153
  /\ firstn 150 (ArticleList.summaryText s) = firstn 150 s
  /\ ArticleList.summaryText (ArticleList.summaryText s) = ArticleList.summaryText s.
Proof.
  unfold ArticleList.summaryText.
  destruct (150 <? JS.length s) eqn:E.
  - apply Z.ltb_lt in E.
    assert (Hs : (150 <= List.length s)%nat) by (unfold JS.length in E; lia).
    rewrite substring_prefix by lia.
    change (Z.to_nat 150) with 150%nat.
    assert (L : JS.length (firstn 150 s ++ js "...") = 153).
    { unfold JS.length; rewrite length_app, firstn_length_le by exact Hs; reflexivity. }
    rewrite L; simpl (150 <? 153).
    rewrite substring_prefix by lia.
    change (Z.to_nat 150) with 150%nat.
    rewrite firstn_150_app by exact Hs.
    repeat split; lia.
  - rewrite E; apply Z.ltb_ge in E.
    repeat split; lia.
Qed.

(** X17: a card carries the "Verified" badge or the "Review" badge, never
    both; it carries one of them exactly when the article has quality
    scores, and "Verified" exactly when the detail page would say
    "Passed". *)
Theorem badges_exclude_each_other (article : Article.t) :
  (ArticleList.showsVerified article && ArticleList.showsReview article = false)
  /\ (ArticleList.showsVerified article || ArticleList.showsReview article = true
      <-> Article.qa_scores article <> None)
  /\ (ArticleList.showsVerified article = true
      <-> option_map ArticleDetail.qaBadge (ArticleDetail.sidebar article)
          = Some (js "Passed"))
  /\ ArticleList.badge (ArticleList.card article)
     = (if ArticleList.showsVerified article then Some (js "Verified")
        else if ArticleList.showsReview article then Some (js "Review")
        else None).
Proof.
  unfold ArticleList.showsVerified, ArticleList.showsReview, ArticleDetail.sidebar,
    ArticleList.card, ArticleList.qaBadge; simpl.
  destruct (Article.qa_scores article) as [q|]; simpl.
  - destruct (QAScores.passed q); simpl; repeat split; try discriminate; auto.
  - repeat split; try discriminate; auto; intros H; contradiction.
Qed.

(** A card shows at most three categories and the detail page at
    most five tags, always the first ones in their order; the detail page
    shows every category. *)
Theorem shown_labels_are_a_prefix (article : Article.t) :
  let cats := ArticleList.cardCategories (ArticleList.card article) in
  let tags := ArticleDetail.headerTags article in
  (List.length cats = Nat.min 3 (List.length (Article.categories article)))
  /\ (exists rest, Article.categories article = cats ++ rest)
  /\ (List.length tags = Nat.min 5 (List.length (Article.tags article)))
  /\ (exists rest, Article.tags article = tags ++ rest)
  /\ ArticleDetail.headerCategories article = Article.categories article.
Proof.
  cbv zeta; unfold ArticleDetail.headerTags, ArticleDetail.headerCategories.
  change (ArticleList.cardCategories (ArticleList.card article))
    with (firstn 3 (Article.categories article)).
  rewrite !length_firstn.
  split; [reflexivity|]. split.
  - exists (skipn 3 (Article.categories article)); symmetry; apply firstn_skipn.
  - split; [reflexivity|]. split; [|reflexivity].
    exists (skipn 5 (Article.tags article)); symmetry; apply firstn_skipn.
Qed.

(** X18: the article is laid out right to left exactly when its language
    code is ['ar'], which is exactly when the badge shows the Arabic label;
    the text of the badge is the label alone when the article has no
    dialect (or an empty one) and the label followed by the dialect in
    parentheses otherwise. *)
Theorem rtl_goes_with_the_arabic_label (article : Article.t) :
  (ArticleDetail.dir article = js "rtl" <-> Article.language article = js "ar")
  /\ (ArticleDetail.dir article = js "rtl"
      <-> ArticleDetail.languageLabel (Article.language article) = ArticleDetail.label_ar)
  /\ (ArticleDetail.dir article = js "ltr"
      <-> ArticleDetail.languageLabel (Article.language article) = js "English")
  /\ ArticleDetail.languageBadge article
     = ArticleDetail.languageLabel (Article.language article)
       ++ (if truthy_opt (Article.dialect article)
           then js " (" ++ or_else (Article.dialect article) [] ++ js ")"
           else []).
Proof.
  assert (B : ArticleDetail.languageBadge article
              = ArticleDetail.languageLabel (Article.language article)
                ++ (if truthy_opt (Article.dialect article)
                    then js " (" ++ or_else (Article.dialect article) [] ++ js ")"
                    else [])).
  { unfold ArticleDetail.languageBadge.
    destruct (Article.dialect article) as [[|d0 d]|]; reflexivity. }
  unfold ArticleDetail.dir, ArticleDetail.isRTL, ArticleDetail.languageLabel in *.
  destruct (strict_eq (Article.language article) (js "ar")) eqn:E.
  - apply strict_eq_true in E.
    repeat split; auto; discriminate.
  - apply strict_eq_false in E.
    repeat split; auto; try discriminate; intros H; contradiction.
Qed.


(* ================================================================== *)
(** * Further properties of the repository client                      *)
(* ================================================================== *)

Lemma call_resolved_iff {T} (backend : Api.Request -> Axios.Wire T) (r : Api.Request) (b : T) :
  Api.call backend r = Resolved b
  <-> exists st, backend r = Axios.Answer st b /\ 200 <= st < 300.
Proof.
  unfold Api.call, Api.returned_data, Axios.settle, Axios.validateStatus.
  destruct (backend r) as [st b'|].
  - destruct (200 <=? st) eqn:A; destruct (st <? 300) eqn:B; simpl;
      try apply Z.leb_le in A; try apply Z.leb_gt in A;
      try apply Z.ltb_lt in B; try apply Z.ltb_ge in B;
      (split; [intros [= <-] | intros (st' & [= -> ->] & H)]);
      try lia; try reflexivity; try (exists st; split; [reflexivity|lia]).
  - split; [discriminate|intros (st' & [=] & _)].
Qed.

(** X19: listing, searching, submitting a URL and polling a task each
    resolve with the body of the reply exactly when the status of the reply
    is between 200 and 299; no endpoint treats any other status, or the
    absence of a reply, as a success. *)
Theorem endpoints_resolve_on_2xx_only :
  (forall backend page pageSize language category b,
      Api.getArticles backend page pageSize language category = Resolved b
      <-> exists st,
            backend (Api.getArticles_request page pageSize language category)
            = Axios.Answer st b /\ 200 <= st < 300)
  /\ (forall backend q page pageSize b,
        Api.searchArticles backend q page pageSize = Resolved b
        <-> exists st,
              backend (Api.searchArticles_request q page pageSize) = Axios.Answer st b
              /\ 200 <= st < 300)
  /\ (forall backend request b,
        Api.processUrl backend request = Resolved b
        <-> exists st,
              backend (Api.processUrl_request request) = Axios.Answer st b
              /\ 200 <= st < 300)
  /\ (forall backend taskId b,
        Api.getProcessingStatus backend taskId = Resolved b
        <-> exists st,
              backend (Api.getProcessingStatus_request taskId) = Axios.Answer st b
              /\ 200 <= st < 300).
Proof.
  repeat split; intros; try (apply call_resolved_iff; assumption);
    match goal with H : _ |- _ => apply call_resolved_iff in H; exact H end.
Qed.

(** X20: [deleteArticle] resolves, with nothing, exactly when the reply's
    status is between 200 and 299, whatever the body; deleting an article
    the backend no longer has (a 404) is a failure that carries the
    status. *)
Theorem deleteArticle_outcomes (backend : Api.Request -> Axios.Wire unit) (id : jsstring) :
  (Api.deleteArticle backend id = Resolved tt
   <-> exists st b, backend (Api.deleteArticle_request id) = Axios.Answer st b
                    /\ 200 <= st < 300)
  /\ (forall b, backend (Api.deleteArticle_request id) = Axios.Answer 404 b ->
                Api.deleteArticle backend id
                = Rejected (Axios.AxiosError (js "Request failed with status code 404")
                              (Some 404)))
  /\ Api.method (Api.deleteArticle_request id) = Api.DELETE
  /\ Api.path (Api.deleteArticle_request id) = Api.path (Api.getArticle_request id).
Proof.
  unfold Api.deleteArticle, Axios.settle, Axios.validateStatus.
  split; [|split; [intros b ->; reflexivity|split; reflexivity]].
  destruct (backend (Api.deleteArticle_request id)) as [st b'|].
  - destruct (200 <=? st) eqn:A; destruct (st <? 300) eqn:B; simpl;
      try apply Z.leb_le in A; try apply Z.leb_gt in A;
      try apply Z.ltb_lt in B; try apply Z.ltb_ge in B;
      (split; [intros H | intros (st' & b0 & [= -> ->] & H)]);
      try discriminate; try lia; try reflexivity;
      try (exists st, b'; split; [reflexivity|lia]).
  - split; [discriminate|intros (st' & b0 & [=] & _)].
Qed.

Lemma deleteArticle_outcomes_witness :
  Api.deleteArticle (fun _ => Axios.Answer 404 tt) (js "a1")
  = Rejected (Axios.AxiosError (js "Request failed with status code 404") (Some 404)).
Proof.
  apply (deleteArticle_outcomes (fun _ => Axios.Answer 404 tt) (js "a1")) with (b := tt).
  reflexivity.
Defined.

(** X21: the list request always carries [page] and [page_size] first; a
    filter is sent exactly when it is a non-empty string, [language] before
    [category], so an empty filter gives the same request as no filter. *)
Theorem list_request_filters (page pageSize : Z) (language category : option jsstring) :
  Api.query (Api.getArticles_request page pageSize language category)
  = [(js "page", toString page); (js "page_size", toString pageSize)]
    ++ (if truthy_opt language then [(js "language", or_else language [])] else [])
    ++ (if truthy_opt category then [(js "category", or_else category [])] else [])
  /\ Api.getArticles_request page pageSize (Some []) category
     = Api.getArticles_request page pageSize None category
  /\ Api.getArticles_request page pageSize language (Some [])
     = Api.getArticles_request page pageSize language None.
Proof.
  unfold Api.getArticles_request, Api.append_if.
  destruct language as [[|l0 l]|]; destruct category as [[|c0 c]|]; repeat split.
Qed.

(** ** Reading a request back *)

Lemma js_inj (a b : string) : js a = js b -> a = b.
Proof.
  unfold js; intros H.
  rewrite <- (string_of_list_ascii_of_string a), <- (string_of_list_ascii_of_string b).
  f_equal.
  revert H; generalize (list_ascii_of_string a) (list_ascii_of_string b).
  induction l as [|x l IH]; intros [|y l']; simpl; try discriminate; [reflexivity|].
  intros [= H1 H2]; f_equal; [|now apply IH].
  rewrite <- (ascii_N_embedding x), <- (ascii_N_embedding y); now rewrite H1.
Qed.

Lemma to_int_proper (z : Z) : Z.to_int z <> Decimal.Pos Decimal.Nil
                              /\ Z.to_int z <> Decimal.Neg Decimal.Nil.
Proof.
  destruct z as [|p|p]; simpl; split; try discriminate;
    intros [= H]; revert H; apply DecimalPos.Unsigned.to_uint_nonnil.
Qed.

(** The decimal text of an integer determines it. *)
Lemma toString_inj (a b : Z) : toString a = toString b -> a = b.
Proof.
  unfold toString; intros H; apply js_inj in H.
  apply DecimalZ.to_int_inj.
  destruct (to_int_proper a) as [A1 A2], (to_int_proper b) as [B1 B2].
  pose proof (NilZero.isi _ A1 A2) as Ia.
  pose proof (NilZero.isi _ B1 B2) as Ib.
  rewrite H in Ia; congruence.
Qed.

(** X22: the request [fetchArticles] makes tells which page and which
    query it was made for: two views that differ in the page number or in
    the search text never issue the same request. *)
Theorem fetch_request_determines_the_view (c c' : Home.Closure) :
  Home.fetch_request c = Home.fetch_request c' -> c = c'.
Proof.
  destruct c as [p q], c' as [p' q']; unfold Home.fetch_request; simpl.
  destruct q as [|x q]; destruct q' as [|y q']; simpl;
    unfold Api.getArticles_request, Api.searchArticles_request; simpl.
  - intros [= H]; apply toString_inj in H; now subst.
  - intros [=].
  - intros [=].
  - intros [= -> -> Hp]; apply toString_inj in Hp; now subst.
Qed.

Lemma fetch_request_determines_the_view_witness :
  Home.fetch_request (Home.mkClosure 2 (js "climate"))
  = Home.fetch_request (Home.mkClosure (1 + 1) (trim (js " climate ")))
  /\ Home.mkClosure 2 (js "climate") = Home.mkClosure (1 + 1) (trim (js " climate ")).
Proof.
  assert (H : Home.fetch_request (Home.mkClosure 2 (js "climate"))
              = Home.fetch_request (Home.mkClosure (1 + 1) (trim (js " climate "))))
    by (vm_compute; reflexivity).
  split; [exact H|].
  exact (fetch_request_determines_the_view _ _ H).
Defined.


(* ================================================================== *)
(** * Properties of the header's search box                            *)
(* ================================================================== *)

Lemma hexDigit_unreserved (n : N) : (n < 16)%N -> Header.isUnreserved (Header.hexDigit n) = true.
Proof.
  intros H.
  assert (E : forallb (fun k => Header.isUnreserved (Header.hexDigit (N.of_nat k))) (seq 0 16) = true)
    by (vm_compute; reflexivity).
  rewrite forallb_forall in E.
  specialize (E (N.to_nat n)).
  rewrite N2Nat.id in E; apply E, in_seq; lia.
Qed.

Lemma percentOctet_safe (o : N) :
  (o < 256)%N -> forallb Header.url_safe (Header.percentOctet o) = true.
Proof.
  intros H; unfold Header.percentOctet.
  cbn [forallb]; unfold Header.url_safe.
  rewrite !hexDigit_unreserved; [reflexivity| |].
  - apply N.mod_lt; discriminate.
  - apply N.Div0.div_lt_upper_bound; lia.
Qed.

Lemma utf8_octets (cp : N) :
  (cp < 1114112)%N -> Forall (fun o => (o < 256)%N) (Header.utf8 cp).
Proof.
  intros H; unfold Header.utf8.
  destruct (cp <? 128)%N eqn:A; [apply N.ltb_lt in A; repeat constructor; lia|].
  destruct (cp <? 2048)%N eqn:B; [apply N.ltb_lt in B|].
  { repeat constructor.
    - assert (cp / 64 < 32)%N by (apply N.Div0.div_lt_upper_bound; lia). lia.
    - assert (cp mod 64 < 64)%N by (apply N.mod_lt; discriminate). lia. }
  destruct (cp <? 65536)%N eqn:C; [apply N.ltb_lt in C|].
  { repeat constructor.
    - assert (cp / 4096 < 16)%N by (apply N.Div0.div_lt_upper_bound; lia). lia.
    - assert ((cp / 64) mod 64 < 64)%N by (apply N.mod_lt; discriminate). lia.
    - assert (cp mod 64 < 64)%N by (apply N.mod_lt; discriminate). lia. }
  repeat constructor.
  - assert (cp / 262144 < 5)%N by (apply N.Div0.div_lt_upper_bound; lia). lia.
  - assert ((cp / 4096) mod 64 < 64)%N by (apply N.mod_lt; discriminate). lia.
  - assert ((cp / 64) mod 64 < 64)%N by (apply N.mod_lt; discriminate). lia.
  - assert (cp mod 64 < 64)%N by (apply N.mod_lt; discriminate). lia.
Qed.

Lemma escape_safe (cp : N) :
  (cp < 1114112)%N -> forallb Header.url_safe (Header.escape cp) = true.
Proof.
  intros H; unfold Header.escape.
  pose proof (utf8_octets cp H) as F.
  induction F as [|o l Ho _ IH]; [reflexivity|].
  cbn [flat_map]; rewrite forallb_app, IH, percentOctet_safe by exact Ho; reflexivity.
Qed.

Lemma pairCodePoint_bound (c d : N) :
  Header.isLeadSurrogate c = true -> Header.isTrailSurrogate d = true ->
  (65536 <= Header.pairCodePoint c d < 1114112)%N.
Proof.
  unfold Header.isLeadSurrogate, Header.isTrailSurrogate, Header.pairCodePoint.
  rewrite !andb_true_iff, !N.leb_le; lia.
Qed.

Lemma encode_safe (n : nat) (s e : jsstring) :
  (List.length s <= n)%nat ->
  Forall (fun c => (c < 65536)%N) s ->
  Header.encodeURIComponent s = Some e ->
  forallb Header.url_safe e = true.
Proof.
  revert s e; induction n as [|n IH]; intros s e L F.
  - destruct s; [intros [= <-]; reflexivity|simpl in L; lia].
  - destruct s as [|c s']; [intros [= <-]; reflexivity|].
    inversion F as [|? ? Hc F']; subst.
    simpl in L; simpl.
    destruct (Header.isUnreserved c) eqn:U.
    + destruct (Header.encodeURIComponent s') as [e'|] eqn:E; [|discriminate].
      intros [= <-]; simpl; unfold Header.url_safe at 1; rewrite U; simpl.
      apply (IH s' e'); [lia|exact F'|exact E].
    + destruct (Header.isLeadSurrogate c) eqn:Ld.
      * destruct s' as [|d s'']; [discriminate|].
        destruct (Header.isTrailSurrogate d) eqn:Tr; [|discriminate].
        destruct (Header.encodeURIComponent s'') as [e'|] eqn:E; [|discriminate].
        intros [= <-]; rewrite forallb_app.
        rewrite escape_safe by (apply pairCodePoint_bound; assumption).
        inversion F'; subst; simpl in L.
        apply (IH s'' e'); [lia|assumption|exact E].
      * destruct (Header.isTrailSurrogate c); [discriminate|].
        destruct (Header.encodeURIComponent s') as [e'|] eqn:E; [|discriminate].
        intros [= <-]; rewrite forallb_app.
        rewrite escape_safe by lia.
        apply (IH s' e'); [lia|exact F'|exact E].
Qed.

Lemma encode_unreserved (s : jsstring) :
  forallb Header.isUnreserved s = true -> Header.encodeURIComponent s = Some s.
Proof.
  induction s as [|c s IH]; [reflexivity|].
  simpl; intros H; apply andb_true_iff in H as [Hc Hs].
  now rewrite Hc, (IH Hs).
Qed.


(** The encoding at work: ASCII punctuation, a two-octet letter, Arabic
    and a surrogate pair; a lone surrogate is refused. *)
Example encodeURIComponent_runs :
  Header.encodeURIComponent (js "a b&c=d/e?f#g+h") = Some (js "a%20b%26c%3Dd%2Fe%3Ff%23g%2Bh")
  /\ Header.encodeURIComponent [233]%N = Some (js "%C3%A9")
  /\ Header.encodeURIComponent ArticleDetail.label_ar
     = Some (js "%D8%A7%D9%84%D8%B9%D8%B1%D8%A8%D9%8A%D8%A9")
  /\ Header.encodeURIComponent [55357; 56832]%N = Some (js "%F0%9F%98%80")
  /\ Header.encodeURIComponent [55357]%N = None
  /\ Header.encodeURIComponent [56832; 55357]%N = None.
Proof. vm_compute; repeat split. Qed.

Lemma trimStart_incl (s : jsstring) (x : N) : In x (trimStart s) -> In x s.
Proof.
  induction s as [|c s IH]; simpl; [tauto|].
  destruct (isWhiteSpace c); simpl; tauto.
Qed.

Lemma trim_incl (s : jsstring) (x : N) : In x (trim s) -> In x s.
Proof.
  unfold trim, trimEnd; intros H.
  apply in_rev, trimStart_incl, in_rev, trimStart_incl in H; exact H.
Qed.

(** X23: a search is started only for a query that is not blank.  With an
    empty or white-space-only query the handler does nothing; otherwise it
    either navigates once, to [/?search=] followed by the encoded trimmed
    query, or (when the query holds an unpaired surrogate) raises the
    [URIError] of [encodeURIComponent] without navigating.  The field
    itself is never changed. *)
Theorem search_only_for_a_query (w : Header.World) :
  let q := trim (Header.searchQuery (Header.view w)) in
  Header.view (exec Header.handleSearch w) = Header.view w
  /\ match q with
     | [] => Header.handleSearch w = (Normal tt, w)
     | _ :: _ =>
         match Header.encodeURIComponent q with
         | Some encoded =>
             completion Header.handleSearch w = Normal tt
             /\ Header.navigations (exec Header.handleSearch w)
                = Header.navigations w ++ [js "/?search=" ++ encoded]
         | None =>
             completion Header.handleSearch w = Abrupt Header.URIError
             /\ Header.navigations (exec Header.handleSearch w) = Header.navigations w
         end
     end.
Proof.
  cbv zeta; unfold Header.handleSearch, exec, completion.
  destruct (trim (Header.searchQuery (Header.view w))) as [|c q].
  - split; reflexivity.
  - cbn [truthy].
    destruct (Header.encodeURIComponent (c :: q)) as [encoded|]; repeat split.
Qed.

(** X24: whatever is typed, the text that follows [/?search=] is made of
    letters, digits, [- _ . ! ~ * ' ( )] and [%] only, so it holds no
    [&], [=], [#], [+], [?], [/] or space: the query cannot end the
    parameter or add another one.  A query made of unreserved characters
    only is passed as it is. *)
Theorem search_target_is_one_parameter (w : Header.World) (target : jsstring) :
  Forall (fun c => (c < 65536)%N) (Header.searchQuery (Header.view w)) ->
  Header.navigations (exec Header.handleSearch w) = Header.navigations w ++ [target] ->
  exists encoded,
    target = js "/?search=" ++ encoded
    /\ forallb Header.url_safe encoded = true
    /\ (forall c, In c encoded ->
          c <> 38 /\ c <> 61 /\ c <> 35 /\ c <> 43 /\ c <> 63 /\ c <> 47 /\ c <> 32)%N
    /\ (forallb Header.isUnreserved (trim (Header.searchQuery (Header.view w))) = true ->
        encoded = trim (Header.searchQuery (Header.view w))).
Proof.
  intros F; unfold Header.handleSearch, exec.
  assert (Ft : Forall (fun c => (c < 65536)%N) (trim (Header.searchQuery (Header.view w)))).
  { rewrite Forall_forall in *; intros x Hx; apply F, trim_incl, Hx. }
  destruct (trim (Header.searchQuery (Header.view w))) as [|c q] eqn:T.
  - simpl; intros H. apply (f_equal (@List.length jsstring)) in H.
    rewrite length_app in H; simpl in H; lia.
  - cbn [truthy].
    destruct (Header.encodeURIComponent (c :: q)) as [encoded|] eqn:E.
    + simpl; intros H; apply app_inv_head in H; injection H as <-.
      exists encoded; split; [reflexivity|].
      pose proof (encode_safe _ _ _ (le_n _) Ft E) as S.
      split; [exact S|]. split.
      * intros x Hx; rewrite forallb_forall in S; specialize (S x Hx).
        repeat split; intros ->; discriminate.
      * intros U; rewrite (encode_unreserved (c :: q) U) in E; congruence.
    + simpl; intros H. apply (f_equal (@List.length jsstring)) in H.
      rewrite length_app in H; simpl in H; lia.
Qed.

Lemma search_target_is_one_parameter_witness :
  let w := exec (Header.setSearchQuery (js " climate & co ")) Header.initial in
  Forall (fun c => (c < 65536)%N) (Header.searchQuery (Header.view w))
  /\ Header.navigations (exec Header.handleSearch w) = [js "/?search=climate%20%26%20co"]
  /\ exists encoded,
       js "/?search=climate%20%26%20co" = js "/?search=" ++ encoded
       /\ forallb Header.url_safe encoded = true.
Proof.
  cbv zeta.
  assert (F : Forall (fun c => (c < 65536)%N)
                (Header.searchQuery
                   (Header.view (exec (Header.setSearchQuery (js " climate & co "))
                                   Header.initial)))).
  { apply Forall_forall; intros x Hx.
    vm_compute in Hx; repeat (destruct Hx as [<- | Hx]; [reflexivity|]); contradiction. }
  assert (N : Header.navigations
                (exec Header.handleSearch
                   (exec (Header.setSearchQuery (js " climate & co ")) Header.initial))
              = Header.navigations
                  (exec (Header.setSearchQuery (js " climate & co ")) Header.initial)
                ++ [js "/?search=climate%20%26%20co"]) by (vm_compute; reflexivity).
  split; [exact F|]. split; [vm_compute; reflexivity|].
  destruct (search_target_is_one_parameter _ _ F N) as (encoded & E & S & _).
  exists encoded; split; [exact E|exact S].
Defined.
